(** * skogul: the Metadata and Data transformers

    A shallow embedding of [transformer/metadata.go]: the rule-driven
    transformers [Metadata.Transform] and [Data.Transform] and the
    [flattenStructure] primitive they share, followed by the properties of
    the specification that concern them.

    Conventions of the embedding.
    - A Go [map[string]interface{}] is a nilable finite map: [None] is the
      nil map, [Some g] an allocated one.  Reading a nil map yields the zero
      value, deleting from it does nothing, writing to it panics.
    - An [interface{}] holding JSON is the inductive [value]; the nil
      interface is [VNull].
    - Go iterates a map in an unspecified order.  Loops over a map are folds
      ([map_fold]); the section [RangeOrder] shows that the loop bodies used
      here give the same result for every enumeration of the entries.
    - A method with a pointer receiver returns the receiver next to the
      container, so that writes to the transformer itself are visible.
    - The transformers are handed one container by one handler invocation,
      and the maps of distinct metrics are distinct objects, so a container
      is modelled by value.  The debugging output that the rename loop
      writes to standard output is not part of the container and is left
      out. *)

From stdpp Require Import gmap strings list fin_maps pretty.
From Stdlib Require Import ZArith.

#[local] Set Warnings "-register-all".
#[local] Open Scope string_scope.

(** ** Package skogul: values, metrics, containers *)
Module skogul.

(** The dynamic values a metric carries. *)
Inductive value : Type :=
| VNull
| VBool (b : bool)
| VInt (z : Z)
| VFloat (bits : Z)
| VStr (s : string)
| VMap (m : gmap string value)
| VList (l : list value).

(** [v == nil] for an interface value. *)
Definition isNil (v : value) : bool :=
  match v with VNull => true | _ => false end.

Abbreviation gomap := (option (gmap string value)).

(** [m == nil] for a map. *)
Definition isNilMap (m : gomap) : bool :=
  match m with None => true | Some _ => false end.

(** [v, ok := m[k]] *)
Definition commaOk (m : gomap) (k : string) : option value :=
  m ≫= (.!! k).

(** [m[k]]: the zero value when [k] is missing or [m] is nil. *)
Definition index (m : gomap) (k : string) : value :=
  default VNull (commaOk m k).

(** [delete(m, k)] *)
Definition mapdelete (k : string) (m : gomap) : gomap :=
  delete k <$> m.

(** [if m == nil { m = make(...) }; m[k] = v] *)
Definition makeAssign (k : string) (v : value) (m : gomap) : gomap :=
  Some (<[k:=v]> (default ∅ m)).

Record Metric : Type := mkMetric {
  Time : option Z;
  Metadata : gomap;
  Data : gomap
}.

Record Container : Type := mkContainer {
  Template : option Metric;
  Metrics : list Metric
}.

Definition withMetadata (g : gomap) (m : Metric) : Metric :=
  {| Time := Time m; Metadata := g; Data := Data m |}.

Definition withData (g : gomap) (m : Metric) : Metric :=
  {| Time := Time m; Metadata := Metadata m; Data := g |}.

Definition withMetrics (ms : list Metric) (c : Container) : Container :=
  {| Template := Template c; Metrics := ms |}.

(** Errors are the messages [fmt.Errorf] builds. *)
Definition error : Type := string.

(** What running a piece of code gives: a value, a returned error, or a
    run-time panic. *)
Inductive exec (A : Type) : Type :=
| Done (a : A)
| Fail (e : error)
| Panic.
Arguments Done {A} a.
Arguments Fail {A} e.
Arguments Panic {A}.

(** Modelled from the spec: [skogul.ExtractNestedObject] is declared outside
    the transformer package.  It resolves [object[p0][p1]...[p(k-1)]], the
    parent of the leaf named by [keys = [p0; ...; pk]], and fails when an
    intermediate is missing or is not a mapping.  [flattenStructure] reads
    [nestedPath[0]] before the call, so it never passes an empty path. *)
Fixpoint ExtractNestedObject (object : gomap) (keys : list string)
  : exec gomap :=
  match keys with
  | [] => Fail "failed to extract nested object"
  | [_] => Done object
  | k :: rest =>
      match index object k with
      | VMap next => ExtractNestedObject (Some next) rest
      | _ => Fail "failed to extract nested object"
      end
  end.

End skogul.

(** ** Package transformer *)
Module transformer.
Import skogul.

Record SourceDestination : Type := mkSourceDestination {
  Source : string;
  Destination : string;
  Keep : bool
}.

(** The side of the metric a flatten works on. *)
Definition target (isData : bool) (metric : Metric) : gomap :=
  if isData then Data metric else Metadata metric.

Definition withTarget (isData : bool) (g : gomap) (metric : Metric) : Metric :=
  if isData then withData g metric else withMetadata g metric.

(** [nestedObjectPath]: the path joined by the separator (lines 145-152). *)
Definition joinPath (separator : string) (nestedPath : list string)
  (first : string) : string :=
  if negb (bool_decide (separator = "drop")) && (1 <? length nestedPath)%nat
  then foldl (λ acc p, acc +:+ separator +:+ p) first (tail nestedPath)
  else first.

(** The loop over an array leaf (lines 178-195): element [i] contributes
    its own keys prefixed by the index, or itself under the index. *)
Fixpoint flattenArray (separator : string) (i : nat) (arr : list value)
  (nestedObj : gmap string value) : gmap string value :=
  match arr with
  | [] => nestedObj
  | val :: rest =>
      flattenArray separator (S i) rest
        match val with
        | VMap obj =>
            map_fold (λ key val acc,
                        <[pretty i +:+ separator +:+ key := val]> acc)
                     nestedObj obj
        | _ => <[pretty i := val]> nestedObj
        end
  end.

(** One round of the loop that writes the children to the root
    (lines 198-214). *)
Definition flattenWrite (isData KeepOriginal : bool)
  (nestedObjectPath separator key : string) (val : value)
  (st : exec Metric) : exec Metric :=
  match st with
  | Done metric =>
      match target isData metric with
      | None => Panic
      | Some g =>
          let g' := <[nestedObjectPath +:+ separator +:+ key := val]> g in
          Done (withTarget isData
                  (Some (if KeepOriginal then g'
                         else delete nestedObjectPath g'))
                  metric)
      end
  | other => other
  end.

(** [flattenStructure] copies a nested object or array to the root level.
    [Done m] is a nil error with the metric left as [m]; every error is
    returned before the first write, so [Fail] leaves the metric as it
    was. *)
Definition flattenStructure (nestedPath : list string) (separator : string)
  (KeepOriginal : bool) (metric : Metric) (isData : bool) : exec Metric :=
  match nestedPath with
  | [] => Panic
  | first :: _ =>
      let nestedObjectPath := joinPath separator nestedPath first in
      let drop := bool_decide (separator = "drop") in
      let nestedObjectPath := if drop then "" else nestedObjectPath in
      let separator := if drop then "" else separator in
      match ExtractNestedObject (target isData metric) nestedPath with
      | Done obj =>
          let leaf := index obj (List.last nestedPath first) in
          let finish nestedObj :=
            map_fold (flattenWrite isData KeepOriginal
                                   nestedObjectPath separator)
                     (Done metric) nestedObj in
          match leaf with
          | VMap nestedObj => finish nestedObj
          | VList nestedObjArray =>
              finish (flattenArray separator 0 nestedObjArray ∅)
          | _ => Fail "failed to cast to array"
          end
      | Fail err => Fail err
      | Panic => Panic
      end
  end.

(** What a [Transform] call ends in. *)
Inductive outcome : Type :=
| Ok
| Err (e : error)
| Panicked.

(** The receiver, the container and the returned error after a call. *)
Record result (T : Type) : Type := mkResult {
  recv : T;
  cont : Container;
  out : outcome
}.
Arguments mkResult {T} recv cont out.
Arguments recv {T} r.
Arguments cont {T} r.
Arguments out {T} r.

(** [for mi := range c.Metrics { ... }] with a body that may return: the
    metrics after the offending one are not reached. *)
Fixpoint eachMetric (body : Metric → Metric * outcome) (ms : list Metric)
  : list Metric * outcome :=
  match ms with
  | [] => ([], Ok)
  | m :: rest =>
      match body m with
      | (m', Ok) =>
          let (rest', o) := eachMetric body rest in (m' :: rest', o)
      | (m', o) => (m' :: rest, o)
      end
  end.

(** [for key, value := range set { lazily make; m[key] = value }] *)
Definition applySet (set : gmap string value) (m : gomap) : gomap :=
  map_fold makeAssign m set.

(** The require loop: the first listed field that is missing or nil. *)
Fixpoint checkRequire (what : string) (fields : list string) (m : gomap)
  : option error :=
  match fields with
  | [] => None
  | value :: rest =>
      if isNilMap m || isNil (index m value)
      then Some ("missing required " +:+ what +:+ " field " +:+ value)
      else checkRequire what rest m
  end.

(** The remove loop. *)
Definition applyRemove (fields : list string) (m : gomap) : gomap :=
  foldl (λ m value, if isNilMap m then m else mapdelete value m) m fields.

(** The ban loop: the first listed field that holds a non-nil value. *)
Fixpoint checkBan (what : string) (fields : list string) (m : gomap)
  : option error :=
  match fields with
  | [] => None
  | value :: rest =>
      if isNilMap m then checkBan what rest m
      else if negb (isNil (index m value))
      then Some ("banned " +:+ what +:+ " field `" +:+ value +:+ "' present")
      else checkBan what rest m
  end.

(** One round of the rename loop. *)
Definition renameOne (m : gomap) (rename : SourceDestination) : gomap :=
  if isNilMap m then m
  else match commaOk m (Source rename) with
       | None => m
       | Some v =>
           let m := (<[Destination rename := v]>) <$> m in
           if negb (Keep rename) then mapdelete (Source rename) m else m
       end.

Definition applyRename (rules : list SourceDestination) (m : gomap) : gomap :=
  foldl renameOne m rules.

(** The flatten loop; the error of [flattenStructure] is discarded. *)
Fixpoint applyFlatten (paths : list (list string)) (separator : string)
  (KeepOriginal isData : bool) (metric : Metric) : Metric * outcome :=
  match paths with
  | [] => (metric, Ok)
  | nestedPath :: rest =>
      match flattenStructure nestedPath separator KeepOriginal metric isData with
      | Done metric' => applyFlatten rest separator KeepOriginal isData metric'
      | Fail _ => applyFlatten rest separator KeepOriginal isData metric
      | Panic => (metric, Panicked)
      end
  end.

(** *** The Metadata transformer *)
Module Metadata.

Record t : Type := mk {
  Set_ : gmap string value;
  Require : list string;
  ExtractFromData : list string;
  CopyFromData : list SourceDestination;
  Remove : list string;
  Ban : list string;
  Flatten : list (list string);
  FlattenSeparator : string;
  Rename : list SourceDestination;
  KeepOriginal : bool
}.

(** One round of the ExtractFromData loop (lines 71-80). *)
Definition extractOne (metric : Metric) (extract : string) : Metric :=
  match commaOk (Data metric) extract with
  | None => metric
  | Some _ =>
      let metric :=
        withMetadata (makeAssign extract (index (Data metric) extract)
                                 (Metadata metric)) metric in
      withData (mapdelete extract (Data metric)) metric
  end.

(** One round of the CopyFromData loop (lines 81-97).  [cpy] is the loop's
    own copy of the rule: defaulting its destination does not write to the
    transformer. *)
Definition copyOne (metric : Metric) (cpy : SourceDestination) : Metric :=
  match commaOk (Data metric) (Source cpy) with
  | None => metric
  | Some _ =>
      let cpy :=
        if bool_decide (Destination cpy = "")
        then {| Source := Source cpy; Destination := Source cpy;
                Keep := Keep cpy |}
        else cpy in
      let metric :=
        withMetadata (makeAssign (Destination cpy)
                                 (index (Data metric) (Source cpy))
                                 (Metadata metric)) metric in
      if negb (Keep cpy)
      then withData (mapdelete (Source cpy) (Data metric)) metric
      else metric
  end.

(** The metric when the require loop is reached (lines 60-65). *)
Definition atRequire (meta : t) (metric : Metric) : Metric :=
  withMetadata (applySet (Set_ meta) (Metadata metric)) metric.

(** The metric when the ban loop is reached (lines 71-103), from the one
    that passed the require loop. *)
Definition atBan (meta : t) (metric : Metric) : Metric :=
  let metric := foldl extractOne metric (ExtractFromData meta) in
  let metric := foldl copyOne metric (CopyFromData meta) in
  withMetadata (applyRemove (Remove meta) (Metadata metric)) metric.

(** The body of the loop over the metrics (lines 60-131). *)
Definition transformMetric (meta : t) (metric : Metric) : Metric * outcome :=
  let metric := atRequire meta metric in
  match checkRequire "metadata" (Require meta) (Metadata metric) with
  | Some e => (metric, Err e)
  | None =>
      let metric := atBan meta metric in
      match checkBan "metadata" (Ban meta) (Metadata metric) with
      | Some e => (metric, Err e)
      | None =>
          let metric :=
            withMetadata (applyRename (Rename meta) (Metadata metric)) metric in
          applyFlatten (Flatten meta) (FlattenSeparator meta)
                       (KeepOriginal meta) false metric
      end
  end.

(** [func (meta *Metadata) Transform(c *skogul.Container) error] *)
Definition Transform (meta : t) (c : Container) : result t :=
  let (ms, o) := eachMetric (transformMetric meta) (Metrics c) in
  mkResult meta (withMetrics ms c) o.

(** [func (meta *Metadata) Deprecated() error] *)
Definition Deprecated (meta : t) : option error :=
  if (0 <? length (ExtractFromData meta))%nat
  then Some "ExtractFromData is replaced by CopyFromData. ExtractFromData will be removed in future versions."
  else None.

End Metadata.

(** *** The Data transformer *)
Module Data.

Record t : Type := mk {
  Set_ : gmap string value;
  Require : list string;
  Flatten : list (list string);
  FlattenSeparator : string;
  Remove : list string;
  Ban : list string;
  Rename : list SourceDestination;
  KeepOriginal : bool
}.

(** Lines 238-240: the receiver's separator is given its default. *)
Definition defaultSeparator (data : t) : t :=
  if bool_decide (FlattenSeparator data = "")
  then {| Set_ := Set_ data; Require := Require data;
          Flatten := Flatten data; FlattenSeparator := "__";
          Remove := Remove data; Ban := Ban data; Rename := Rename data;
          KeepOriginal := KeepOriginal data |}
  else data.

(** The metric when the require loop is reached (lines 243-251): after the
    set and flatten loops, unless a flatten panicked. *)
Definition atRequire (data : t) (metric : Metric) : Metric * outcome :=
  let metric := withData (applySet (Set_ data) (skogul.Data metric)) metric in
  applyFlatten (Flatten data) (FlattenSeparator data) (KeepOriginal data)
               true metric.

(** The metric when the ban loop is reached (lines 257-262), from the one
    that passed the require loop. *)
Definition atBan (data : t) (metric : Metric) : Metric :=
  withData (applyRemove (Remove data) (skogul.Data metric)) metric.

(** The body of the loop over the metrics (lines 243-282). *)
Definition transformMetric (data : t) (metric : Metric) : Metric * outcome :=
  match atRequire data metric with
  | (metric, Ok) =>
      match checkRequire "data" (Require data) (skogul.Data metric) with
      | Some e => (metric, Err e)
      | None =>
          let metric := atBan data metric in
          match checkBan "data" (Ban data) (skogul.Data metric) with
          | Some e => (metric, Err e)
          | None =>
              (withData (applyRename (Rename data) (skogul.Data metric)) metric,
               Ok)
          end
      end
  | stopped => stopped
  end.

(** [func (data *Data) Transform(c *skogul.Container) error] *)
Definition Transform (data : t) (c : Container) : result t :=
  let data := defaultSeparator data in
  let (ms, o) := eachMetric (transformMetric data) (Metrics c) in
  mkResult data (withMetrics ms c) o.

End Data.

End transformer.

(** ** Configurations and inputs of the stated scenarios *)
Module scenario.
Import skogul transformer.

(** A Metadata transformer with only the named rule configured. *)
Definition metaRequire (fields : list string) : Metadata.t :=
  Metadata.mk ∅ fields [] [] [] [] [] "" [] false.

Definition metaBan (fields : list string) : Metadata.t :=
  Metadata.mk ∅ [] [] [] [] fields [] "" [] false.

Definition metaExtract (fields : list string) : Metadata.t :=
  Metadata.mk ∅ [] fields [] [] [] [] "" [] false.

Definition metaCopy (rules : list SourceDestination) : Metadata.t :=
  Metadata.mk ∅ [] [] rules [] [] [] "" [] false.

Definition metaRename (rules : list SourceDestination) : Metadata.t :=
  Metadata.mk ∅ [] [] [] [] [] [] "" rules false.

(** A Data transformer with only the named rule configured. *)
Definition dataFlatten (paths : list (list string)) (separator : string)
  (KeepOriginal : bool) : Data.t :=
  Data.mk ∅ [] paths separator [] [] [] KeepOriginal.

Definition dataRename (rules : list SourceDestination) : Data.t :=
  Data.mk ∅ [] [] "" [] [] rules false.

(** [{a: {b: 1, c: 2}}] *)
Definition nested_ab : gmap string value :=
  {[ "a" := VMap (<["b" := VInt 1]> {[ "c" := VInt 2 ]}) ]}.

(** [{a: [{x: 1}, {y: 2}]}] *)
Definition array_xy : gmap string value :=
  {[ "a" := VList [VMap {[ "x" := VInt 1 ]}; VMap {[ "y" := VInt 2 ]}] ]}.

(** A container of one metric. *)
Definition oneMetric (metadata data : gomap) : Container :=
  mkContainer None [mkMetric None metadata data].

End scenario.

(** ** The result of a flatten, in closed form *)
Module flat.
Import skogul transformer.

(** The root key a child [key] of the flattened object is written to. *)
Definition rootKey (nestedObjectPath separator key : string) : string :=
  nestedObjectPath +:+ separator +:+ key.

(** The target map after the loop of lines 198-214 ran over [nestedObj],
    starting from [g]: the children go to their root keys, over what was
    there; without [KeepOriginal] every round also deletes the key
    [nestedObjectPath], so nothing is deleted when there is no child. *)
Definition written (KeepOriginal : bool) (nestedObjectPath separator : string)
  (nestedObj g : gmap string value) : gmap string value :=
  if KeepOriginal
  then kmap (rootKey nestedObjectPath separator) nestedObj ∪ g
  else if decide (nestedObj = ∅) then g
       else delete nestedObjectPath
              (kmap (rootKey nestedObjectPath separator) nestedObj ∪ g).

(** An array element that is not a map: it is written under its index. *)
Definition scalar (v : value) : Prop :=
  match v with VMap _ => False | _ => True end.

End flat.

(** ** Command skogul: the help table *)
Module main.

(** Console width. *)
Definition helpWidth : nat := 66.

(** The line feed, byte 10. *)
Definition newline : string :=
  String (Ascii.Ascii false true false true false false false false) "".

Section prettyPrint.

(** [fmt.Sprintf("%11s", s)]: [s] right-aligned in eleven columns. *)
Variable Sprintf_11s : string → string.
(** [strings.Fields]: the words of a string. *)
Variable Fields : string → list string.

(** The loop of [prettyPrint] over the words, [l] being the width used on
    the current line; the result is what it prints. *)
Fixpoint wrapLoop (l : nat) (fields : list string) : string :=
  match fields with
  | [] => ""
  | w :: rest =>
      if (helpWidth <? l + String.length w)%nat
      then (newline +:+ Sprintf_11s "" +:+ " |")
           +:+ (" " +:+ w) +:+ wrapLoop (0 + (String.length w + 1)) rest
      else (" " +:+ w) +:+ wrapLoop (l + (String.length w + 1)) rest
  end.

(** [prettyPrint] wraps lines in a table; the result is its output. *)
Definition prettyPrint (scheme desc : string) : string :=
  (Sprintf_11s scheme +:+ " |") +:+ wrapLoop 0 (Fields desc) +:+ newline.

(** The text of a line of words: each word after a blank. *)
Definition lineText (line : list string) : string :=
  foldr (λ w acc, (" " +:+ w) +:+ acc) "" line.

(** The text of the table cell: a first line and the continuation lines,
    each of these after a line break and an empty first column. *)
Definition layout (first : list string) (more : list (list string)) : string :=
  lineText first
  +:+ foldr (λ line acc,
               (newline +:+ Sprintf_11s "" +:+ " |") +:+ lineText line +:+ acc)
            "" more.

End prettyPrint.

End main.

Import skogul transformer scenario flat.

(** ** Go's unspecified iteration order

    A [range] over a map may visit the entries in any order.  When the loop
    body commutes on distinct keys, every enumeration of the entries gives
    the result of [map_fold]; the bodies of the loops over maps in this file
    commute. *)
Section RangeOrder.

(** Equal maps, by comparing the lookups of inserts and deletes. *)
Ltac map_comm :=
  apply map_eq; intros ?;
  repeat (rewrite ?lookup_delete, ?lookup_insert; case_decide);
  congruence.

Lemma rangeMap_any_order {A B : Type} (f : string → A → B → B) (b : B)
  (m : gmap string A) (l : list (string * A)) :
  (∀ k1 v1 k2 v2 acc, k1 ≠ k2 → f k1 v1 (f k2 v2 acc) = f k2 v2 (f k1 v1 acc)) →
  l ≡ₚ map_to_list m →
  foldr (uncurry f) b l = map_fold f b m.
Proof.
  intros Hcomm Hperm. rewrite map_fold_foldr. symmetry.
  apply (foldr_permutation (=)); [solve_proper| |by symmetry].
  intros j1 [k1 v1] j2 [k2 v2] acc Hj H1 H2. simpl.
  apply Hcomm. intros ->.
  pose proof (NoDup_fst_map_to_list m) as Hnd.
  apply Hj. eapply NoDup_lookup; [exact Hnd| |].
  - rewrite list_lookup_fmap, H1. reflexivity.
  - rewrite list_lookup_fmap, H2. reflexivity.
Qed.

Lemma makeAssign_comm (k1 k2 : string) (v1 v2 : value) (m : gomap) :
  k1 ≠ k2 →
  makeAssign k1 v1 (makeAssign k2 v2 m) = makeAssign k2 v2 (makeAssign k1 v1 m).
Proof.
  intros Hne. unfold makeAssign. simpl. f_equal. by apply insert_insert_ne.
Qed.

Lemma prefixed_ne (p k1 k2 : string) : k1 ≠ k2 → p +:+ k1 ≠ p +:+ k2.
Proof. intros Hne Heq. apply Hne. by apply (inj (String.app p)). Qed.

Lemma flattenWrite_comm (isData keep : bool) (path sep k1 k2 : string)
  (v1 v2 : value) (st : exec Metric) :
  k1 ≠ k2 →
  flattenWrite isData keep path sep k1 v1
    (flattenWrite isData keep path sep k2 v2 st)
  = flattenWrite isData keep path sep k2 v2
      (flattenWrite isData keep path sep k1 v1 st).
Proof.
  intros Hne. destruct st as [metric| |]; [|done..].
  assert (path +:+ sep +:+ k1 ≠ path +:+ sep +:+ k2) as Hk
    by by do 2 apply prefixed_ne.
  destruct metric as [t md dt], isData; simpl.
  - destruct dt as [g|]; [|done].
    destruct keep; unfold withData; simpl;
      apply (f_equal Done), (f_equal (mkMetric t md)), (f_equal Some);
      map_comm.
  - destruct md as [g|]; [|done].
    destruct keep; unfold withMetadata; simpl;
      apply (f_equal Done), (f_equal (λ x, mkMetric t x dt)), (f_equal Some);
      map_comm.
Qed.

(** The set loop, for every order of its rounds. *)
Lemma applySet_any_order (set : gmap string value) (m : gomap)
  (l : list (string * value)) :
  l ≡ₚ map_to_list set →
  foldr (uncurry makeAssign) m l = applySet set m.
Proof.
  apply rangeMap_any_order. intros. by apply makeAssign_comm.
Qed.

(** The loop that writes the flattened children, for every order. *)
Lemma flattenWrite_any_order (isData keep : bool) (path sep : string)
  (nestedObj : gmap string value) (metric : Metric)
  (l : list (string * value)) :
  l ≡ₚ map_to_list nestedObj →
  foldr (uncurry (flattenWrite isData keep path sep)) (Done metric) l
  = map_fold (flattenWrite isData keep path sep) (Done metric) nestedObj.
Proof.
  apply rangeMap_any_order. intros. by apply flattenWrite_comm.
Qed.

(** The loop over the keys of one array element, for every order. *)
Lemma flattenArray_any_order (sep : string) (i : nat)
  (obj acc : gmap string value) (l : list (string * value)) :
  l ≡ₚ map_to_list obj →
  foldr (uncurry (λ key val acc, <[pretty i +:+ sep +:+ key := val]> acc))
        acc l
  = map_fold (λ key val acc, <[pretty i +:+ sep +:+ key := val]> acc) acc obj.
Proof.
  apply rangeMap_any_order. intros k1 v1 k2 v2 a Hne.
  apply insert_insert_ne. by do 2 apply prefixed_ne.
Qed.

(** The set loop in closed form: an empty [Set] leaves the map as it is,
    nil included; otherwise the map is allocated and [Set] overrides it. *)
Lemma applySet_empty (m : gomap) : applySet ∅ m = m.
Proof. unfold applySet. by rewrite map_fold_empty. Qed.

Lemma applySet_nonempty (set : gmap string value) (m : gomap) :
  set ≠ ∅ → applySet set m = Some (set ∪ default ∅ m).
Proof.
  unfold applySet.
  intros Hne.
  cut ((set = ∅ → map_fold makeAssign m set = m)
       ∧ (set ≠ ∅ → map_fold makeAssign m set = Some (set ∪ default ∅ m))).
  { intros [_ H]. by apply H. }
  clear Hne.
  apply (map_fold_weak_ind
           (λ r s, (s = ∅ → r = m) ∧ (s ≠ ∅ → r = Some (s ∪ default ∅ m)))).
  { split; done. }
  intros k v s r Hk [IH0 IH1]. split.
  { intros He. by apply insert_non_empty in He. }
  intros _. unfold makeAssign. f_equal.
  destruct (decide (s = ∅)) as [->|Hs].
  - rewrite IH0 by done.
    by rewrite insert_empty, insert_union_singleton_l.
  - rewrite (IH1 Hs). simpl. by rewrite insert_union_l.
Qed.

End RangeOrder.

(** ** The loop over the metrics *)
Section EachMetric.

Variable body : Metric → Metric * outcome.

Lemma eachMetric_cons (m : Metric) (ms : list Metric) :
  eachMetric body (m :: ms)
  = match snd (body m) with
    | Ok => (fst (body m) :: fst (eachMetric body ms),
             snd (eachMetric body ms))
    | o => (fst (body m) :: ms, o)
    end.
Proof.
  simpl. destruct (body m) as [m' []]; simpl; try done.
  by destruct (eachMetric body ms).
Qed.

(** When the loop ends normally, every metric went through the body. *)
Lemma eachMetric_ok_lookup (ms ms' : list Metric) :
  eachMetric body ms = (ms', Ok) →
  ∀ i m, ms !! i = Some m → ∃ m', ms' !! i = Some m' ∧ body m = (m', Ok).
Proof.
  revert ms'. induction ms as [|m0 ms IH]; intros ms' Hrun i m Hi; [done|].
  rewrite eachMetric_cons in Hrun.
  destruct (body m0) as [m0' o0] eqn:Hb. simpl in Hrun.
  destruct o0; [|by inversion Hrun..].
  destruct (eachMetric body ms) as [rest o] eqn:Hrest. simpl in Hrun.
  inversion Hrun; subst. destruct i as [|i]; simpl in *.
  - inversion Hi; subst. eauto.
  - by apply IH.
Qed.

Lemma eachMetric_ok_elem (ms ms' : list Metric) :
  eachMetric body ms = (ms', Ok) →
  ∀ m', m' ∈ ms' → ∃ m, m ∈ ms ∧ body m = (m', Ok).
Proof.
  revert ms'. induction ms as [|m0 ms IH]; intros ms' Hrun m' Hin.
  - inversion Hrun; subst. by apply elem_of_nil in Hin.
  - rewrite eachMetric_cons in Hrun.
    destruct (body m0) as [m0' o0] eqn:Hb. simpl in Hrun.
    destruct o0; [|by inversion Hrun..].
    destruct (eachMetric body ms) as [rest o] eqn:Hrest. simpl in Hrun.
    inversion Hrun; subst. apply elem_of_cons in Hin as [->|Hin].
    + exists m0. split; [left|done].
    + destruct (IH rest eq_refl m' Hin) as (m & Hm & Hbm).
      exists m. split; [by right|done].
Qed.

(** A body that always ends normally is mapped over the metrics. *)
Lemma eachMetric_all_ok (ms : list Metric) :
  (∀ m, snd (body m) = Ok) →
  eachMetric body ms = ((fst ∘ body) <$> ms, Ok).
Proof.
  intros Hok. induction ms as [|m ms IH]; [done|].
  rewrite eachMetric_cons, Hok, IH. done.
Qed.

(** A returned error is the error of the body on some metric. *)
Lemma eachMetric_err (ms : list Metric) (e : error) :
  snd (eachMetric body ms) = Err e →
  ∃ m, m ∈ ms ∧ snd (body m) = Err e.
Proof.
  induction ms as [|m ms IH]; intros Hrun; [done|].
  rewrite eachMetric_cons in Hrun.
  destruct (snd (body m)) eqn:Hb; simpl in Hrun.
  - destruct (IH Hrun) as (m1 & Hin & Hm1). exists m1. split; [by right|done].
  - inversion Hrun; subst. exists m. split; [left|done].
  - done.
Qed.


(** If the body fails on some metric and never panics, the loop returns an
    error. *)
Lemma eachMetric_fails (ms : list Metric) (m : Metric) :
  (∀ m, snd (body m) ≠ Panicked) →
  m ∈ ms → (∃ e, snd (body m) = Err e) →
  ∃ e, snd (eachMetric body ms) = Err e.
Proof.
  intros Hnp Hin [e He]. induction ms as [|m0 ms IH]; [by apply elem_of_nil in Hin|].
  rewrite eachMetric_cons. destruct (snd (body m0)) eqn:Hb; simpl.
  - apply elem_of_cons in Hin as [->|Hin]; [congruence|by apply IH].
  - eauto.
  - by destruct (Hnp m0).
Qed.

End EachMetric.

Lemma eachMetric_ext (f g : Metric → Metric * outcome) (ms : list Metric) :
  (∀ m, f m = g m) → eachMetric f ms = eachMetric g ms.
Proof.
  intros Hfg. induction ms as [|m ms IH]; [done|].
  by rewrite !eachMetric_cons, Hfg, IH.
Qed.

(** ** Panics of the flatten step *)
Section FlattenPanics.

Lemma ExtractNestedObject_allocated (object obj : gomap) (keys : list string)
  (k : string) :
  ExtractNestedObject object keys = Done obj →
  isNil (index obj k) = false →
  isNilMap object = false.
Proof.
  destruct keys as [|k0 [|k1 rest]]; simpl; [done| |].
  - intros [= ->]. by destruct obj.
  - destruct object; [done|]. unfold index at 1. simpl. done.
Qed.

Lemma flattenWrite_loop_done (isData keep : bool) (path sep : string)
  (nestedObj : gmap string value) (metric : Metric) :
  isNilMap (target isData metric) = false →
  ∃ metric',
    map_fold (flattenWrite isData keep path sep) (Done metric) nestedObj
    = Done metric'
    ∧ isNilMap (target isData metric') = false.
Proof.
  intros Hm.
  apply (map_fold_weak_ind
           (λ r (_ : gmap string value),
              ∃ metric', r = Done metric'
                         ∧ isNilMap (target isData metric') = false)).
  - eauto.
  - intros k v _ r _ (m1 & -> & Hm1). unfold flattenWrite.
    destruct (target isData m1) as [g|] eqn:Ht; [|done].
    eexists. split; [done|]. by destruct isData.
Qed.

(** [flattenStructure] panics on the empty path only: it never writes to a
    nil map. *)
Lemma flattenStructure_panic (nestedPath : list string) (separator : string)
  (keep : bool) (metric : Metric) (isData : bool) :
  flattenStructure nestedPath separator keep metric isData = Panic ↔
  nestedPath = [].
Proof.
  split; [|by intros ->].
  destruct nestedPath as [|first rest]; [done|]. intros Hrun. exfalso.
  unfold flattenStructure in Hrun.
  destruct (ExtractNestedObject (target isData metric) (first :: rest))
    as [obj| |] eqn:Hex.
  - set (leaf := index obj (List.last (first :: rest) first)) in *.
    assert (isNil leaf = false → isNilMap (target isData metric) = false) as Hal
      by (by eapply ExtractNestedObject_allocated).
    destruct leaf; try done.
    + destruct (flattenWrite_loop_done isData keep
                  (if bool_decide (separator = "drop") then ""
                   else joinPath separator (first :: rest) first)
                  (if bool_decide (separator = "drop") then "" else separator)
                  m metric (Hal eq_refl)) as (m' & Hm' & _).
      congruence.
    + destruct (flattenWrite_loop_done isData keep
                  (if bool_decide (separator = "drop") then ""
                   else joinPath separator (first :: rest) first)
                  (if bool_decide (separator = "drop") then "" else separator)
                  (flattenArray
                     (if bool_decide (separator = "drop") then "" else separator)
                     0 l ∅)
                  metric (Hal eq_refl)) as (m' & Hm' & _).
      congruence.
  - done.
  - clear Hrun. revert Hex. generalize (target isData metric).
    generalize (first :: rest). intros keys.
    induction keys as [|k0 keys IH]; intros object; [done|].
    simpl. destruct keys as [|k1 keys]; [done|].
    destruct (index object k0); try done. apply IH.
Qed.

(** The flatten loop panics only on an empty path, and returns no error. *)
Lemma applyFlatten_out (paths : list (list string)) (separator : string)
  (keep isData : bool) (metric : Metric) :
  snd (applyFlatten paths separator keep isData metric)
  = if bool_decide ([] ∈ paths) then Panicked else Ok.
Proof.
  revert metric. induction paths as [|p paths IH]; intros metric; [done|].
  simpl.
  destruct (flattenStructure p separator keep metric isData) as [m'| |] eqn:Hf.
  - rewrite IH. assert (p ≠ []) as Hp.
    { intros ->. by rewrite (proj2 (flattenStructure_panic _ _ _ _ _)) in Hf. }
    rewrite (bool_decide_ext ([] ∈ p :: paths) ([] ∈ paths)); [done|].
    rewrite elem_of_cons. split; [by intros [?|?]|by right].
  - rewrite IH. assert (p ≠ []) as Hp.
    { intros ->. by rewrite (proj2 (flattenStructure_panic _ _ _ _ _)) in Hf. }
    rewrite (bool_decide_ext ([] ∈ p :: paths) ([] ∈ paths)); [done|].
    rewrite elem_of_cons. split; [by intros [?|?]|by right].
  - apply flattenStructure_panic in Hf as ->.
    rewrite bool_decide_true by (by left). done.
Qed.

End FlattenPanics.

(** ** The require and ban loops *)
Section Checks.

Lemma index_nil_map (m : gomap) (k : string) :
  isNilMap m = true → index m k = VNull.
Proof. by destruct m. Qed.

Lemma index_not_nil (m : gomap) (k : string) :
  isNil (index m k) = false ↔ ∃ v, commaOk m k = Some v ∧ isNil v = false.
Proof.
  unfold index. destruct (commaOk m k) as [v|]; simpl.
  - split; [eauto|]. by intros (? & [= <-] & ?).
  - split; [done|]. by intros (? & ? & ?).
Qed.

Lemma checkRequire_None (what : string) (fields : list string) (m : gomap) :
  checkRequire what fields m = None ↔
  ∀ k, k ∈ fields → isNil (index m k) = false.
Proof.
  induction fields as [|f fields IH]; simpl.
  - split; [|done]. intros _ k Hk. by apply elem_of_nil in Hk.
  - destruct (isNilMap m) eqn:Hm; simpl.
    + split; [done|]. intros H. specialize (H f (list_elem_of_here _ _)).
      by rewrite index_nil_map in H.
    + destruct (isNil (index m f)) eqn:Hf.
      * split; [done|]. intros H. specialize (H f (list_elem_of_here _ _)).
        congruence.
      * rewrite IH. split.
        -- intros H k [->|Hk]%elem_of_cons; auto.
        -- intros H k Hk. apply H. by right.
Qed.

Lemma checkRequire_Some (what : string) (fields : list string) (m : gomap)
  (e : error) :
  checkRequire what fields m = Some e →
  ∃ k, k ∈ fields
       ∧ e = "missing required " +:+ what +:+ " field " +:+ k
       ∧ isNil (index m k) = true.
Proof.
  induction fields as [|f fields IH]; simpl; [done|].
  destruct (isNilMap m) eqn:Hm; simpl.
  - intros [= <-]. exists f. split_and!; [left|done|].
    by rewrite index_nil_map.
  - destruct (isNil (index m f)) eqn:Hf.
    + intros [= <-]. exists f. split_and!; [left|done..].
    + intros (k & Hk & He & Hn)%IH. exists k. split_and!; [by right|done..].
Qed.

Lemma checkBan_None (what : string) (fields : list string) (m : gomap) :
  checkBan what fields m = None ↔
  ∀ k, k ∈ fields → isNil (index m k) = true.
Proof.
  induction fields as [|f fields IH]; simpl.
  - split; [|done]. intros _ k Hk. by apply elem_of_nil in Hk.
  - destruct (isNilMap m) eqn:Hm; simpl.
    + rewrite IH. split.
      * intros H k _. by rewrite index_nil_map.
      * intros H k Hk. apply H. by right.
    + destruct (isNil (index m f)) eqn:Hf; simpl.
      * rewrite IH. split.
        -- intros H k [->|Hk]%elem_of_cons; auto.
        -- intros H k Hk. apply H. by right.
      * split; [done|]. intros H. specialize (H f (list_elem_of_here _ _)).
        congruence.
Qed.

Lemma checkBan_Some (what : string) (fields : list string) (m : gomap)
  (e : error) :
  checkBan what fields m = Some e →
  ∃ k, k ∈ fields
       ∧ e = "banned " +:+ what +:+ " field `" +:+ k +:+ "' present"
       ∧ isNil (index m k) = false.
Proof.
  induction fields as [|f fields IH]; simpl; [done|].
  destruct (isNilMap m) eqn:Hm; simpl.
  - intros (k & Hk & He & Hn)%IH. exists k. split_and!; [by right|done..].
  - destruct (isNil (index m f)) eqn:Hf; simpl.
    + intros (k & Hk & He & Hn)%IH. exists k. split_and!; [by right|done..].
    + intros [= <-]. exists f. split_and!; [left|done..].
Qed.

End Checks.

(** ** The body of [Metadata.Transform] on one metric *)
Section MetadataBody.

Import Metadata.

Lemma transformMetric_no_panic (meta : t) (metric : Metric) :
  [] ∉ Flatten meta → snd (transformMetric meta metric) ≠ Panicked.
Proof.
  intros Hf. unfold transformMetric.
  destruct (checkRequire _ _ _); [done|].
  destruct (checkBan _ _ _); [done|].
  rewrite applyFlatten_out, bool_decide_false by done. done.
Qed.

(** The body ends normally exactly when both checks pass and no flatten
    path is empty. *)
Lemma transformMetric_Ok (meta : t) (metric metric' : Metric) :
  transformMetric meta metric = (metric', Ok) →
  checkRequire "metadata" (Require meta) (Metadata (atRequire meta metric))
  = None
  ∧ checkBan "metadata" (Ban meta)
      (Metadata (atBan meta (atRequire meta metric))) = None
  ∧ applyFlatten (Flatten meta) (FlattenSeparator meta) (KeepOriginal meta)
      false
      (withMetadata
         (applyRename (Rename meta)
            (Metadata (atBan meta (atRequire meta metric))))
         (atBan meta (atRequire meta metric)))
    = (metric', Ok).
Proof.
  unfold transformMetric.
  destruct (checkRequire _ _ _); [done|].
  destruct (checkBan _ _ _); [done|]. done.
Qed.

(** An error of the body is the message of a failed check. *)
Lemma transformMetric_Err (meta : t) (metric : Metric) (e : error) :
  snd (transformMetric meta metric) = Err e →
  checkRequire "metadata" (Require meta) (Metadata (atRequire meta metric))
  = Some e
  ∨ checkBan "metadata" (Ban meta)
      (Metadata (atBan meta (atRequire meta metric))) = Some e.
Proof.
  unfold transformMetric.
  destruct (checkRequire _ _ _) as [e1|]; [intros [= ->]; by left|].
  destruct (checkBan _ _ _) as [e2|]; [intros [= ->]; by right|].
  rewrite applyFlatten_out. by case_bool_decide.
Qed.

End MetadataBody.

(** ** Require and Ban *)

(** C1, as stated, fails: a banned key that is present with a null value
    passes the ban loop, so after a successful [Metadata.Transform] with
    [Ban = [k]] the key [k] can still be present. *)
Lemma C1_ban_null_key_stays :
  ¬ (∀ (meta : Metadata.t) (c : Container) (k : string),
       k ∈ Metadata.Ban meta →
       out (Metadata.Transform meta c) = Ok →
       ∀ m, m ∈ Metrics (cont (Metadata.Transform meta c)) →
            commaOk (Metadata m) k = None).
Proof.
  intros H.
  specialize (H (metaBan ["k"]) (oneMetric (Some {[ "k" := VNull ]}) None) "k").
  specialize (H ltac:(by left) eq_refl _ ltac:(by left)).
  vm_compute in H. discriminate H.
Qed.

(** C1 (amended): for every container and key [k], (1) if
    [Metadata.Transform] with [Require] containing [k], and no later rule
    that rewrites metadata, returns success, then every metric has
    [Metadata[k]] present and non-null; (2) if it returns success with [Ban]
    containing [k], and no rename or flatten rule, then [Metadata[k]] is
    absent or null on every metric; (3) with [Ban] containing [k] it fails
    with an error as soon as some metric reaches the ban loop with a
    non-null [Metadata[k]]. *)
Theorem C1_require_ban (meta : Metadata.t) (c : Container) (k : string) :
  (k ∈ Metadata.Require meta →
   Metadata.ExtractFromData meta = [] → Metadata.CopyFromData meta = [] →
   Metadata.Remove meta = [] → Metadata.Rename meta = [] →
   Metadata.Flatten meta = [] →
   out (Metadata.Transform meta c) = Ok →
   ∀ m, m ∈ Metrics (cont (Metadata.Transform meta c)) →
        ∃ v, commaOk (Metadata m) k = Some v ∧ isNil v = false)
  ∧ (k ∈ Metadata.Ban meta →
     Metadata.Rename meta = [] → Metadata.Flatten meta = [] →
     out (Metadata.Transform meta c) = Ok →
     ∀ m, m ∈ Metrics (cont (Metadata.Transform meta c)) →
          isNil (index (Metadata m) k) = true)
  ∧ (k ∈ Metadata.Ban meta →
     [] ∉ Metadata.Flatten meta →
     (∃ m, m ∈ Metrics c
           ∧ isNil (index (Metadata (Metadata.atBan meta
                                       (Metadata.atRequire meta m))) k)
             = false) →
     ∃ e, out (Metadata.Transform meta c) = Err e).
Proof.
  unfold Metadata.Transform.
  destruct (eachMetric (Metadata.transformMetric meta) (Metrics c))
    as [ms o] eqn:Hrun. cbn [out cont withMetrics Metrics].
  split_and!.
  - intros Hk Hex Hcp Hrm Hrn Hfl -> m' Hm'.
    destruct (eachMetric_ok_elem _ _ _ Hrun m' Hm') as (m & _ & Hb).
    apply transformMetric_Ok in Hb as (Hreq & _ & Hfin).
    unfold Metadata.atBan in Hfin. rewrite Hex, Hcp, Hrm, Hrn, Hfl in Hfin.
    simpl in Hfin. inversion Hfin; subst m'; clear Hfin. simpl.
    apply index_not_nil. by eapply checkRequire_None.
  - intros Hk Hrn Hfl -> m' Hm'.
    destruct (eachMetric_ok_elem _ _ _ Hrun m' Hm') as (m & _ & Hb).
    apply transformMetric_Ok in Hb as (_ & Hban & Hfin).
    rewrite Hrn, Hfl in Hfin. simpl in Hfin.
    inversion Hfin; subst m'; clear Hfin. simpl.
    by eapply checkBan_None.
  - intros Hk Hfl (m & Hm & Hnn).
    change o with (snd (ms, o)). rewrite <- Hrun.
    apply (eachMetric_fails _ _ m); [|done|].
    { intros m0. by apply transformMetric_no_panic. }
    unfold Metadata.transformMetric. cbv zeta.
    destruct (checkRequire _ _ _) as [e|]; [by eexists|].
    destruct (checkBan _ _ _) as [e|] eqn:Hban; [by eexists|].
    rewrite checkBan_None in Hban. rewrite (Hban k Hk) in Hnn. done.
Qed.

Lemma C1_require_ban_witness :
  (∀ m, m ∈ Metrics (cont (Metadata.Transform (metaRequire ["k"])
                             (oneMetric (Some {[ "k" := VInt 1 ]}) None))) →
        ∃ v, commaOk (Metadata m) "k" = Some v ∧ isNil v = false)
  ∧ (∀ m, m ∈ Metrics (cont (Metadata.Transform (metaBan ["k"])
                               (oneMetric (Some {[ "j" := VInt 1 ]}) None))) →
          isNil (index (Metadata m) "k") = true)
  ∧ (∃ e, out (Metadata.Transform (metaBan ["k"])
                 (oneMetric (Some {[ "k" := VInt 1 ]}) None)) = Err e).
Proof.
  split_and!.
  - apply (proj1 (C1_require_ban (metaRequire ["k"])
                    (oneMetric (Some {[ "k" := VInt 1 ]}) None) "k"));
      try reflexivity. by left.
  - apply (proj1 (proj2 (C1_require_ban (metaBan ["k"])
                           (oneMetric (Some {[ "j" := VInt 1 ]}) None) "k")));
      try reflexivity. by left.
  - apply (proj2 (proj2 (C1_require_ban (metaBan ["k"])
                           (oneMetric (Some {[ "k" := VInt 1 ]}) None) "k"))).
    + by left.
    + simpl. apply not_elem_of_nil.
    + eexists. split; [by left|]. reflexivity.
Defined.

(** ** Transformers with a single rule *)
Section SingleRule.

Lemma withMetadata_id (m : Metric) : withMetadata (Metadata m) m = m.
Proof. by destruct m. Qed.

Lemma withData_id (m : Metric) : withData (Data m) m = m.
Proof. by destruct m. Qed.

Lemma metaCopy_body (rules : list SourceDestination) (m : Metric) :
  Metadata.transformMetric (metaCopy rules) m
  = (foldl Metadata.copyOne m rules, Ok).
Proof.
  unfold Metadata.transformMetric, Metadata.atRequire, Metadata.atBan. simpl.
  by rewrite applySet_empty, !withMetadata_id.
Qed.

Lemma metaExtract_body (fields : list string) (m : Metric) :
  Metadata.transformMetric (metaExtract fields) m
  = (foldl Metadata.extractOne m fields, Ok).
Proof.
  unfold Metadata.transformMetric, Metadata.atRequire, Metadata.atBan. simpl.
  by rewrite applySet_empty, !withMetadata_id.
Qed.

Lemma metaRename_body (rules : list SourceDestination) (m : Metric) :
  Metadata.transformMetric (metaRename rules) m
  = (withMetadata (applyRename rules (Metadata m)) m, Ok).
Proof.
  unfold Metadata.transformMetric, Metadata.atRequire, Metadata.atBan. simpl.
  by rewrite applySet_empty, !withMetadata_id.
Qed.

Lemma dataRename_body (sep : string) (keep : bool)
  (rules : list SourceDestination) (m : Metric) :
  Data.transformMetric (Data.mk ∅ [] [] sep [] [] rules keep) m
  = (withData (applyRename rules (Data m)) m, Ok).
Proof.
  unfold Data.transformMetric, Data.atRequire, Data.atBan. simpl.
  by rewrite applySet_empty, !withData_id.
Qed.

(** A transformer whose body never stops maps it over the metrics. *)
Lemma Metadata_Transform_map (meta : Metadata.t) (c : Container)
  (f : Metric → Metric) :
  (∀ m, Metadata.transformMetric meta m = (f m, Ok)) →
  Metadata.Transform meta c
  = mkResult meta (withMetrics (f <$> Metrics c) c) Ok.
Proof.
  intros Hb. unfold Metadata.Transform.
  rewrite (eachMetric_ext _ (λ m, (f m, Ok))) by done.
  by rewrite eachMetric_all_ok.
Qed.

Lemma Data_Transform_map (data : Data.t) (c : Container)
  (f : Metric → Metric) :
  (∀ m, Data.transformMetric (Data.defaultSeparator data) m = (f m, Ok)) →
  Data.Transform data c
  = mkResult (Data.defaultSeparator data) (withMetrics (f <$> Metrics c) c) Ok.
Proof.
  intros Hb. unfold Data.Transform.
  rewrite (eachMetric_ext _ (λ m, (f m, Ok))) by done.
  by rewrite eachMetric_all_ok.
Qed.

End SingleRule.

(** ** Copying from data to metadata *)

Lemma copyOne_found (m : Metric) (s d : string) (keep : bool) (v : value) :
  commaOk (Data m) s = Some v →
  Metadata.copyOne m (mkSourceDestination s d keep)
  = let dst := if bool_decide (d = "") then s else d in
    let m' := withMetadata (makeAssign dst v (Metadata m)) m in
    if keep then m' else withData (mapdelete s (Data m)) m'.
Proof.
  intros Hs. unfold Metadata.copyOne, index. simpl. rewrite Hs. simpl.
  destruct (bool_decide (d = "")), keep; simpl; by rewrite Hs.
Qed.

Lemma copyOne_default_destination (m : Metric) (s : string) (keep : bool) :
  Metadata.copyOne m (mkSourceDestination s "" keep)
  = Metadata.copyOne m (mkSourceDestination s s keep).
Proof.
  unfold Metadata.copyOne. simpl.
  destruct (commaOk (Data m) s); [|done].
  by destruct (bool_decide (s = "")).
Qed.

Lemma commaOk_mapdelete (m : gomap) (k : string) :
  commaOk (mapdelete k m) k = None.
Proof. destruct m; [|done]. simpl. apply lookup_delete_eq. Qed.

(** C2: for every container and every metric [m] with [m.Data[s] = v],
    [Metadata.Transform] with [CopyFromData = [{s, d, keep}]] succeeds,
    leaves [m.Metadata[d] = v] (under [s] when [d] is empty), removes
    [m.Data[s]] when [keep] is false and preserves it when [keep] is true;
    and an empty destination gives the same container and result as the
    destination [s]. *)
Theorem C2_copy_from_data (c : Container) (i : nat) (m : Metric)
  (s d : string) (keep : bool) (v : value) :
  Metrics c !! i = Some m →
  commaOk (Data m) s = Some v →
  out (Metadata.Transform (metaCopy [mkSourceDestination s d keep]) c) = Ok
  ∧ (∃ m',
       Metrics (cont (Metadata.Transform
                        (metaCopy [mkSourceDestination s d keep]) c)) !! i
       = Some m'
       ∧ commaOk (Metadata m') (if bool_decide (d = "") then s else d)
         = Some v
       ∧ commaOk (Data m') s = (if keep then Some v else None))
  ∧ cont (Metadata.Transform (metaCopy [mkSourceDestination s "" keep]) c)
    = cont (Metadata.Transform (metaCopy [mkSourceDestination s s keep]) c)
  ∧ out (Metadata.Transform (metaCopy [mkSourceDestination s "" keep]) c)
    = out (Metadata.Transform (metaCopy [mkSourceDestination s s keep]) c).
Proof.
  intros Hi Hs.
  rewrite !(Metadata_Transform_map _ c _ (metaCopy_body _)). simpl.
  split_and!; [done| | |done].
  - exists (Metadata.copyOne m (mkSourceDestination s d keep)).
    rewrite list_lookup_fmap, Hi. split; [done|].
    rewrite (copyOne_found _ _ _ _ _ Hs). cbv zeta.
    destruct keep; simpl.
    + split; [apply lookup_insert_eq|done].
    + split; [apply lookup_insert_eq|apply commaOk_mapdelete].
  - f_equal. apply list_fmap_ext. intros _ m0 _. simpl.
    apply copyOne_default_destination.
Qed.

Lemma C2_copy_from_data_witness :
  out (Metadata.Transform
         (metaCopy [mkSourceDestination "host" "node" false])
         (oneMetric None (Some {[ "host" := VStr "h1" ]}))) = Ok
  ∧ ∃ m',
      Metrics (cont (Metadata.Transform
                       (metaCopy [mkSourceDestination "host" "node" false])
                       (oneMetric None (Some {[ "host" := VStr "h1" ]}))))
        !! 0%nat = Some m'
      ∧ commaOk (Metadata m') "node" = Some (VStr "h1")
      ∧ commaOk (Data m') "host" = None.
Proof.
  destruct (C2_copy_from_data
              (oneMetric None (Some {[ "host" := VStr "h1" ]})) 0
              (mkMetric None None (Some {[ "host" := VStr "h1" ]}))
              "host" "node" false (VStr "h1"))
    as (Hout & Hm & _); [reflexivity|vm_compute; reflexivity|].
  split; [exact Hout|exact Hm].
Defined.

(** ** Flattening *)

(** Without require and ban rules the body of [Data.Transform] ends
    normally, whatever the flatten step returns, unless a flatten path is
    empty. *)
Lemma Data_body_no_checks (data : Data.t) (m : Metric) :
  Data.Require data = [] → Data.Ban data = [] → [] ∉ Data.Flatten data →
  snd (Data.transformMetric data m) = Ok.
Proof.
  intros Hreq Hban Hfl. unfold Data.transformMetric, Data.atRequire. cbv zeta.
  pose proof (applyFlatten_out (Data.Flatten data) (Data.FlattenSeparator data)
                (Data.KeepOriginal data) true
                (withData (applySet (Data.Set_ data) (Data m)) m)) as Ho.
  rewrite bool_decide_false in Ho by done.
  destruct (applyFlatten _ _ _ _ _) as [m' o]. simpl in Ho. subst o.
  by rewrite Hreq, Hban.
Qed.

(** C3: for every metric whose [Data] equals [{a: {b: 1, c: 2}}],
    [Data.Transform] with [Flatten = [["a"]]], [FlattenSeparator] unset and
    [KeepOriginal = false] succeeds, uses the default separator ["__"], and
    leaves [Data] equal to [{a__b: 1, a__c: 2}]: both children are at the
    root and the key [a] is removed. *)
Theorem C3_flatten_default_separator (c : Container) (i : nat) (m : Metric) :
  Metrics c !! i = Some m →
  Data m = Some nested_ab →
  out (Data.Transform (dataFlatten [["a"]] "" false) c) = Ok
  ∧ Data.FlattenSeparator
      (recv (Data.Transform (dataFlatten [["a"]] "" false) c)) = "__"
  ∧ ∃ m',
      Metrics (cont (Data.Transform (dataFlatten [["a"]] "" false) c)) !! i
      = Some m'
      ∧ Data m' = Some {[ "a__b" := VInt 1; "a__c" := VInt 2 ]}
      ∧ commaOk (Data m') "a" = None
      ∧ Metadata m' = Metadata m.
Proof.
  intros Hi Hd. unfold Data.Transform.
  rewrite eachMetric_all_ok.
  2:{ intros m0. apply Data_body_no_checks; [done..|].
      simpl. by intros [?|[]%elem_of_nil]%elem_of_cons. }
  cbn [out recv cont withMetrics Metrics]. split_and!; [done..|].
  rewrite list_lookup_fmap, Hi. simpl. eexists. split; [done|].
  destruct m as [t md dt]. simpl in Hd. subst dt.
  split_and!; vm_compute; reflexivity.
Qed.

Lemma C3_flatten_default_separator_witness :
  out (Data.Transform (dataFlatten [["a"]] "" false)
         (oneMetric None (Some nested_ab))) = Ok
  ∧ ∃ m',
      Metrics (cont (Data.Transform (dataFlatten [["a"]] "" false)
                       (oneMetric None (Some nested_ab)))) !! 0%nat
      = Some m'
      ∧ Data m' = Some {[ "a__b" := VInt 1; "a__c" := VInt 2 ]}.
Proof.
  destruct (C3_flatten_default_separator (oneMetric None (Some nested_ab)) 0
              (mkMetric None None (Some nested_ab)))
    as (Hout & _ & m' & Hm' & Hd & _); [reflexivity..|].
  split; [exact Hout|]. exists m'. split; [exact Hm'|exact Hd].
Defined.

(** C4, as stated, fails: flattening [{a: [{x: 1}, {y: 2}]}] with path
    [["a"]] and separator ["_"] does not yield the keys [0_x] and [1_y]. *)
Lemma C4_index_keys_are_prefixed :
  ¬ (∀ (metric : Metric) (isData keep : bool),
       target isData metric = Some array_xy →
       ∃ metric',
         flattenStructure ["a"] "_" keep metric isData = Done metric'
         ∧ is_Some (commaOk (target isData metric') "0_x")
         ∧ is_Some (commaOk (target isData metric') "1_y")).
Proof.
  intros H.
  destruct (H (mkMetric None None (Some array_xy)) true false eq_refl)
    as (metric' & Hrun & [v Hx] & _).
  vm_compute in Hrun. inversion Hrun; subst metric'; clear Hrun.
  vm_compute in Hx. discriminate Hx.
Qed.

(** C4 (amended): for every metric whose target map equals
    [{a: [{x: 1}, {y: 2}]}], flattening with path [["a"]] and separator
    ["_"] yields the keys [a_0_x = 1] and [a_1_y = 2]: the array index is
    joined with each element's keys, and the result is prefixed with the
    path [a] like the children of a nested map.  The key [a] is removed
    unless [KeepOriginal] is set. *)
Theorem C4_flatten_array_of_maps (metric : Metric) (isData keep : bool) :
  target isData metric = Some array_xy →
  flattenStructure ["a"] "_" keep metric isData
  = Done (withTarget isData
            (Some (if keep
                   then <["a_0_x" := VInt 1]> (<["a_1_y" := VInt 2]> array_xy)
                   else {[ "a_0_x" := VInt 1; "a_1_y" := VInt 2 ]}))
            metric).
Proof.
  intros Ht. destruct metric as [t md dt], isData, keep;
    simpl in Ht; subst; vm_compute; reflexivity.
Qed.

Lemma C4_flatten_array_of_maps_witness :
  flattenStructure ["a"] "_" false (mkMetric None None (Some array_xy)) true
  = Done (mkMetric None None
            (Some {[ "a_0_x" := VInt 1; "a_1_y" := VInt 2 ]})).
Proof.
  apply (C4_flatten_array_of_maps (mkMetric None None (Some array_xy))
           true false).
  reflexivity.
Defined.

(** C5 says that flattening [{a: {b: 1, c: 2}}] with path [["a"]], separator
    ["drop"] and [KeepOriginal = false] yields [{b: 1, c: 2}].  The code
    writes the children at the root without prefix, but then deletes the
    key [""] instead of [a]: the original nested key stays. *)
Theorem C5_drop_keeps_nested_key (metric : Metric) (isData : bool) :
  target isData metric = Some nested_ab →
  flattenStructure ["a"] "drop" false metric isData
  = Done (withTarget isData
            (Some (<["b" := VInt 1]> (<["c" := VInt 2]> nested_ab)))
            metric).
Proof.
  intros Ht. destruct metric as [t md dt], isData;
    simpl in Ht; subst; vm_compute; reflexivity.
Qed.

Lemma C5_drop_keeps_nested_key_witness :
  flattenStructure ["a"] "drop" false (mkMetric None None (Some nested_ab)) true
  = Done (mkMetric None None
            (Some (<["b" := VInt 1]> (<["c" := VInt 2]> nested_ab)))).
Proof.
  apply (C5_drop_keeps_nested_key (mkMetric None None (Some nested_ab)) true).
  reflexivity.
Defined.

(** ** Returned errors *)

(** An error of the body of [Data.Transform] is the message of a failed
    check, on the metric as the flatten step left it. *)
Lemma Data_transformMetric_Err (data : Data.t) (metric : Metric) (e : error) :
  snd (Data.transformMetric data metric) = Err e →
  ∃ reached,
    Data.atRequire data metric = (reached, Ok)
    ∧ (checkRequire "data" (Data.Require data) (Data reached) = Some e
       ∨ checkBan "data" (Data.Ban data) (Data (Data.atBan data reached))
         = Some e).
Proof.
  unfold Data.transformMetric.
  pose proof (applyFlatten_out (Data.Flatten data) (Data.FlattenSeparator data)
                (Data.KeepOriginal data) true
                (withData (applySet (Data.Set_ data) (Data metric)) metric))
    as Ho.
  fold (Data.atRequire data metric) in Ho.
  destruct (Data.atRequire data metric) as [reached o]. simpl in Ho.
  destruct o.
  - destruct (checkRequire _ _ _) as [e1|] eqn:Hreq.
    { intros [= ->]. exists reached. split; [done|by left]. }
    cbv zeta. destruct (checkBan _ _ _) as [e2|] eqn:Hban; [|done].
    intros [= ->]. exists reached. split; [done|by right].
  - by case_bool_decide.
  - done.
Qed.

(** C6: for every container, [Metadata.Transform] and [Data.Transform]
    return a non-nil error only when a declared precondition is violated:
    the error is the message of a [Require] rule whose key is missing or
    null on some metric, or of a [Ban] rule whose key holds a value on some
    metric.  In particular, without [Require] and [Ban] rules no error is
    returned, whatever the flatten step does. *)
Theorem C6_errors_are_preconditions (meta : Metadata.t) (data : Data.t)
  (c : Container) (e : error) :
  (out (Metadata.Transform meta c) = Err e →
   ∃ m k, m ∈ Metrics c
     ∧ ((k ∈ Metadata.Require meta
         ∧ e = "missing required metadata field " +:+ k
         ∧ isNil (index (Metadata (Metadata.atRequire meta m)) k) = true)
        ∨ (k ∈ Metadata.Ban meta
           ∧ e = "banned metadata field `" +:+ k +:+ "' present"
           ∧ isNil (index (Metadata (Metadata.atBan meta
                                       (Metadata.atRequire meta m))) k)
             = false)))
  ∧ (out (Data.Transform data c) = Err e →
     ∃ m reached k, m ∈ Metrics c
       ∧ Data.atRequire (Data.defaultSeparator data) m = (reached, Ok)
       ∧ ((k ∈ Data.Require data
           ∧ e = "missing required data field " +:+ k
           ∧ isNil (index (Data reached) k) = true)
          ∨ (k ∈ Data.Ban data
             ∧ e = "banned data field `" +:+ k +:+ "' present"
             ∧ isNil (index (Data (Data.atBan (Data.defaultSeparator data)
                                     reached)) k) = false)))
  ∧ (Metadata.Require meta = [] → Metadata.Ban meta = [] →
     out (Metadata.Transform meta c) ≠ Err e)
  ∧ (Data.Require data = [] → Data.Ban data = [] →
     out (Data.Transform data c) ≠ Err e).
Proof.
  assert (Data.Require (Data.defaultSeparator data) = Data.Require data
          ∧ Data.Ban (Data.defaultSeparator data) = Data.Ban data)
    as [Hdr Hdb].
  { unfold Data.defaultSeparator. by case_bool_decide. }
  assert (out (Metadata.Transform meta c) = Err e →
          ∃ m, m ∈ Metrics c
               ∧ snd (Metadata.transformMetric meta m) = Err e) as HM.
  { unfold Metadata.Transform.
    destruct (eachMetric _ _) as [ms o] eqn:Hrun. cbn [out]. intros ->.
    apply eachMetric_err. by rewrite Hrun. }
  assert (out (Data.Transform data c) = Err e →
          ∃ m, m ∈ Metrics c
               ∧ snd (Data.transformMetric (Data.defaultSeparator data) m)
                 = Err e) as HD.
  { unfold Data.Transform. cbv zeta.
    destruct (eachMetric _ _) as [ms o] eqn:Hrun. cbn [out]. intros ->.
    apply eachMetric_err. by rewrite Hrun. }
  split_and!.
  - intros (m & Hm & Hb)%HM. apply transformMetric_Err in Hb as [Hb|Hb].
    + apply checkRequire_Some in Hb as (k & Hk & -> & Hn).
      exists m, k. split; [done|]. left. done.
    + apply checkBan_Some in Hb as (k & Hk & -> & Hn).
      exists m, k. split; [done|]. right. done.
  - intros (m & Hm & Hb)%HD.
    apply Data_transformMetric_Err in Hb as (reached & Hr & [Hb|Hb]).
    + apply checkRequire_Some in Hb as (k & Hk & -> & Hn).
      exists m, reached, k. split_and!; [done..|]. left. by rewrite <- Hdr.
    + apply checkBan_Some in Hb as (k & Hk & -> & Hn).
      exists m, reached, k. split_and!; [done..|]. right. by rewrite <- Hdb.
  - intros Hreq Hban (m & Hm & Hb)%HM.
    apply transformMetric_Err in Hb. rewrite Hreq, Hban in Hb.
    by destruct Hb.
  - intros Hreq Hban (m & Hm & Hb)%HD.
    apply Data_transformMetric_Err in Hb as (reached & _ & Hb).
    rewrite Hdr, Hdb, Hreq, Hban in Hb. by destruct Hb.
Qed.

(** A flatten that fails inside a transformer: the leaf is a number, the
    cast fails, and [Transform] still returns nil. *)
Lemma flatten_failure_is_dropped :
  flattenStructure ["x"] "_" false
    (mkMetric None None (Some {[ "x" := VInt 1 ]})) true
  = Fail "failed to cast to array"
  ∧ out (Data.Transform (dataFlatten [["x"]] "_" false)
           (oneMetric None (Some {[ "x" := VInt 1 ]}))) = Ok.
Proof. split; vm_compute; reflexivity. Qed.

Lemma C6_errors_are_preconditions_witness :
  (∃ m k, m ∈ Metrics (oneMetric None (Some {[ "x" := VInt 1 ]}))
     ∧ ((k ∈ Metadata.Require (metaRequire ["host"])
         ∧ "missing required metadata field host"
           = "missing required metadata field " +:+ k
         ∧ isNil (index (Metadata (Metadata.atRequire
                                     (metaRequire ["host"]) m)) k) = true)
        ∨ (k ∈ Metadata.Ban (metaRequire ["host"])
           ∧ "missing required metadata field host"
             = "banned metadata field `" +:+ k +:+ "' present"
           ∧ isNil (index (Metadata (Metadata.atBan (metaRequire ["host"])
                                       (Metadata.atRequire
                                          (metaRequire ["host"]) m))) k)
             = false)))
  ∧ out (Data.Transform (dataFlatten [["x"]] "_" false)
           (oneMetric None (Some {[ "x" := VInt 1 ]})))
    ≠ Err "failed to cast to array".
Proof.
  split.
  - apply (proj1 (C6_errors_are_preconditions (metaRequire ["host"])
                    (dataFlatten [["x"]] "_" false)
                    (oneMetric None (Some {[ "x" := VInt 1 ]}))
                    "missing required metadata field host")).
    vm_compute. reflexivity.
  - apply (proj2 (proj2 (proj2
             (C6_errors_are_preconditions (metaRequire ["host"])
                (dataFlatten [["x"]] "_" false)
                (oneMetric None (Some {[ "x" := VInt 1 ]}))
                "failed to cast to array")))); reflexivity.
Defined.

(** ** Renaming *)

Lemma renameOne_found (g : gmap string value) (s d : string) (keep : bool)
  (v : value) :
  g !! s = Some v →
  renameOne (Some g) (mkSourceDestination s d keep)
  = Some (if keep then <[d:=v]> g else delete s (<[d:=v]> g)).
Proof. intros Hs. unfold renameOne. simpl. rewrite Hs. by destruct keep. Qed.

Lemma renameOne_missing (m : gomap) (r : SourceDestination) :
  commaOk m (Source r) = None → renameOne m r = m.
Proof. intros Hs. unfold renameOne. rewrite Hs. by destruct (isNilMap m). Qed.

(** C7, as stated, fails: a rename with an empty destination is not a
    rename to the source name. *)
Lemma C7_empty_destination_not_defaulted :
  ¬ (∀ (c : Container) (s : string),
       cont (Metadata.Transform
               (metaRename [mkSourceDestination s "" false]) c)
       = cont (Metadata.Transform
                 (metaRename [mkSourceDestination s s false]) c)).
Proof.
  intros H.
  specialize (H (oneMetric (Some {[ "s" := VInt 1 ]}) None) "s").
  apply (f_equal (λ c, head (Metrics c) ≫= λ m, commaOk (Metadata m) "")) in H.
  vm_compute in H. discriminate H.
Qed.

(** C7 (amended): for every container and every metric with [map[s] = v],
    a Rename rule [{source: s, destination: "", keep: false}] does not
    default its destination: [Metadata.Transform] (on metadata) and
    [Data.Transform] (on data) succeed, assign [v] to the empty-string key
    and delete the key [s]. *)
Theorem C7_rename_empty_destination (c : Container) (i : nat) (m : Metric)
  (s : string) (v : value) :
  Metrics c !! i = Some m →
  (commaOk (Metadata m) s = Some v →
   out (Metadata.Transform (metaRename [mkSourceDestination s "" false]) c)
   = Ok
   ∧ ∃ m',
       Metrics (cont (Metadata.Transform
                        (metaRename [mkSourceDestination s "" false]) c)) !! i
       = Some m'
       ∧ Metadata m' = (λ g, delete s (<["" := v]> g)) <$> Metadata m
       ∧ Data m' = Data m
       ∧ commaOk (Metadata m') s = None
       ∧ (s ≠ "" → commaOk (Metadata m') "" = Some v))
  ∧ (commaOk (Data m) s = Some v →
     out (Data.Transform (dataRename [mkSourceDestination s "" false]) c)
     = Ok
     ∧ ∃ m',
         Metrics (cont (Data.Transform
                          (dataRename [mkSourceDestination s "" false]) c)) !! i
         = Some m'
         ∧ Data m' = (λ g, delete s (<["" := v]> g)) <$> Data m
         ∧ Metadata m' = Metadata m
         ∧ commaOk (Data m') s = None
         ∧ (s ≠ "" → commaOk (Data m') "" = Some v)).
Proof.
  intros Hi. split; intros Hs.
  - rewrite (Metadata_Transform_map _ c _ (metaRename_body _)).
    cbn [out cont withMetrics Metrics]. split; [done|].
    rewrite list_lookup_fmap, Hi. simpl. eexists. split; [done|].
    destruct m as [t [g|] dt]; simpl in Hs; [|done].
    cbn [Metadata Data withMetadata applyRename foldl].
    rewrite (renameOne_found _ _ _ _ _ Hs). simpl.
    split_and!; [done..| |].
    + apply lookup_delete_eq.
    + intros Hne. by rewrite lookup_delete_ne, lookup_insert_eq.
  - rewrite (Data_Transform_map _ c
               (λ m, withData (applyRename [mkSourceDestination s "" false]
                                 (Data m)) m)).
    2:{ intros m0. unfold dataRename, Data.defaultSeparator. simpl.
        apply dataRename_body. }
    cbn [out cont withMetrics Metrics]. split; [done|].
    rewrite list_lookup_fmap, Hi. simpl. eexists. split; [done|].
    destruct m as [t md [g|]]; simpl in Hs; [|done].
    cbn [Metadata Data withData applyRename foldl].
    rewrite (renameOne_found _ _ _ _ _ Hs). simpl.
    split_and!; [done..| |].
    + apply lookup_delete_eq.
    + intros Hne. by rewrite lookup_delete_ne, lookup_insert_eq.
Qed.

Lemma C7_rename_empty_destination_witness :
  out (Metadata.Transform (metaRename [mkSourceDestination "s" "" false])
         (oneMetric (Some {[ "s" := VInt 1 ]}) None)) = Ok
  ∧ ∃ m',
      Metrics (cont (Metadata.Transform
                       (metaRename [mkSourceDestination "s" "" false])
                       (oneMetric (Some {[ "s" := VInt 1 ]}) None))) !! 0%nat
      = Some m'
      ∧ commaOk (Metadata m') "s" = None
      ∧ commaOk (Metadata m') "" = Some (VInt 1).
Proof.
  destruct (C7_rename_empty_destination
              (oneMetric (Some {[ "s" := VInt 1 ]}) None) 0
              (mkMetric None (Some {[ "s" := VInt 1 ]}) None)
              "s" (VInt 1) eq_refl) as [Hmeta _].
  destruct Hmeta as (Hout & m' & Hm' & _ & _ & Hs & He);
    [vm_compute; reflexivity|].
  split; [exact Hout|]. exists m'. split_and!; [exact Hm'|exact Hs|].
  apply He. discriminate.
Defined.

(** Renaming to another key with [keep = false] is idempotent. *)
Lemma renameOne_idem (m : gomap) (s d : string) :
  d ≠ s →
  renameOne (renameOne m (mkSourceDestination s d false))
            (mkSourceDestination s d false)
  = renameOne m (mkSourceDestination s d false).
Proof.
  intros Hne. destruct m as [g|]; [|done].
  destruct (g !! s) as [v|] eqn:Hs.
  - rewrite (renameOne_found _ _ _ _ _ Hs). simpl.
    apply renameOne_missing. simpl. apply lookup_delete_eq.
  - assert (renameOne (Some g) (mkSourceDestination s d false) = Some g)
      as Hsame by (by apply renameOne_missing).
    by rewrite !Hsame.
Qed.

(** C10: for every container and all distinct keys [s] and [d], applying
    [Metadata.Transform] with [Rename = [{source: s, destination: d,
    keep: false}]] twice yields the same container as applying it once, and
    both applications succeed. *)
Theorem C10_rename_twice (c : Container) (s d : string) :
  d ≠ s →
  cont (Metadata.Transform (metaRename [mkSourceDestination s d false])
          (cont (Metadata.Transform
                   (metaRename [mkSourceDestination s d false]) c)))
  = cont (Metadata.Transform (metaRename [mkSourceDestination s d false]) c)
  ∧ out (Metadata.Transform (metaRename [mkSourceDestination s d false]) c)
    = Ok
  ∧ out (Metadata.Transform (metaRename [mkSourceDestination s d false])
           (cont (Metadata.Transform
                    (metaRename [mkSourceDestination s d false]) c)))
    = Ok.
Proof.
  intros Hne.
  rewrite !(Metadata_Transform_map _ _ _ (metaRename_body _)).
  cbn [out cont withMetrics Metrics Template]. split_and!; [|done..].
  unfold withMetrics. cbn [Template]. f_equal.
  rewrite <- list_fmap_compose. apply list_fmap_ext. intros _ m _.
  destruct m as [t md dt]. unfold withMetadata. simpl. f_equal.
  by apply renameOne_idem.
Qed.

Lemma C10_rename_twice_witness :
  cont (Metadata.Transform
          (metaRename [mkSourceDestination "host" "node" false])
          (cont (Metadata.Transform
                   (metaRename [mkSourceDestination "host" "node" false])
                   (oneMetric (Some {[ "host" := VStr "h1" ]}) None))))
  = cont (Metadata.Transform
            (metaRename [mkSourceDestination "host" "node" false])
            (oneMetric (Some {[ "host" := VStr "h1" ]}) None)).
Proof.
  apply (C10_rename_twice (oneMetric (Some {[ "host" := VStr "h1" ]}) None)
           "host" "node").
  discriminate.
Defined.

(** ** The deprecated extract rule *)

Lemma extractOne_copyOne (m : Metric) (s : string) :
  Metadata.extractOne m s
  = Metadata.copyOne m (mkSourceDestination s "" false).
Proof.
  unfold Metadata.extractOne, Metadata.copyOne. simpl.
  by destruct (commaOk (Data m) s).
Qed.

(** C8: for every container, [Metadata.Transform] with
    [ExtractFromData = [s]] leaves the container, and returns, exactly as
    [Metadata.Transform] with [CopyFromData = [{source: s, destination: "",
    keep: false}]] does, whatever the other rules of the transformer. *)
Theorem C8_extract_is_copy (set : gmap string value)
  (req rem ban : list string) (fl : list (list string)) (sep : string)
  (ren : list SourceDestination) (keep : bool) (s : string) (c : Container) :
  cont (Metadata.Transform
          (Metadata.mk set req [s] [] rem ban fl sep ren keep) c)
  = cont (Metadata.Transform
            (Metadata.mk set req [] [mkSourceDestination s "" false]
                         rem ban fl sep ren keep) c)
  ∧ out (Metadata.Transform
           (Metadata.mk set req [s] [] rem ban fl sep ren keep) c)
    = out (Metadata.Transform
             (Metadata.mk set req [] [mkSourceDestination s "" false]
                          rem ban fl sep ren keep) c).
Proof.
  unfold Metadata.Transform.
  rewrite (eachMetric_ext
             (Metadata.transformMetric
                (Metadata.mk set req [s] [] rem ban fl sep ren keep))
             (Metadata.transformMetric
                (Metadata.mk set req [] [mkSourceDestination s "" false]
                             rem ban fl sep ren keep))).
  - by destruct (eachMetric _ _).
  - intros m. unfold Metadata.transformMetric, Metadata.atBan,
      Metadata.atRequire. simpl. by rewrite extractOne_copyOne.
Qed.

(** ** The transformer instances *)

(** C9, as stated, fails: [Data.Transform] writes the default separator
    into a transformer whose [FlattenSeparator] is unset. *)
Lemma C9_data_separator_is_written :
  ¬ (∀ (data : Data.t) (c : Container), recv (Data.Transform data c) = data).
Proof.
  intros H.
  specialize (H (dataFlatten [] "" false) (mkContainer None [])).
  apply (f_equal Data.FlattenSeparator) in H. vm_compute in H. discriminate H.
Qed.

(** C9 (amended): for every container, [Metadata.Transform] leaves every
    field of its transformer unchanged, and [Data.Transform] leaves every
    field of its transformer unchanged except [FlattenSeparator], which it
    sets to ["__"] when it was empty. *)
Theorem C9_instances_after_transform (meta : Metadata.t) (data : Data.t)
  (c : Container) :
  recv (Metadata.Transform meta c) = meta
  ∧ Data.Set_ (recv (Data.Transform data c)) = Data.Set_ data
  ∧ Data.Require (recv (Data.Transform data c)) = Data.Require data
  ∧ Data.Flatten (recv (Data.Transform data c)) = Data.Flatten data
  ∧ Data.Remove (recv (Data.Transform data c)) = Data.Remove data
  ∧ Data.Ban (recv (Data.Transform data c)) = Data.Ban data
  ∧ Data.Rename (recv (Data.Transform data c)) = Data.Rename data
  ∧ Data.KeepOriginal (recv (Data.Transform data c)) = Data.KeepOriginal data
  ∧ Data.FlattenSeparator (recv (Data.Transform data c))
    = (if bool_decide (Data.FlattenSeparator data = "") then "__"
       else Data.FlattenSeparator data).
Proof.
  unfold Metadata.Transform, Data.Transform. cbv zeta.
  destruct (eachMetric (Metadata.transformMetric meta) _).
  destruct (eachMetric (Data.transformMetric _) _).
  cbn [recv]. unfold Data.defaultSeparator.
  by case_bool_decide.
Qed.

(** * Further properties of the transformers *)

(** Equal maps, key by key through the lookups of inserts and deletes. *)
Ltac map_lookups :=
  apply map_eq; intros ?;
  repeat (rewrite ?lookup_delete, ?lookup_insert; case_decide);
  congruence.

(** ** The write loop of [flattenStructure] in closed form *)
Section FlattenClosedForm.

#[global] Instance rootKey_inj (path sep : string) :
  Inj (=) (=) (rootKey path sep).
Proof.
  intros k1 k2 Hk. unfold rootKey in Hk.
  by do 2 apply (inj (String.app _)) in Hk.
Qed.

Lemma withTarget_withTarget (isData : bool) (g1 g2 : gomap) (m : Metric) :
  withTarget isData g1 (withTarget isData g2 m) = withTarget isData g1 m.
Proof. by destruct isData. Qed.

Lemma target_withTarget (isData : bool) (g : gomap) (m : Metric) :
  target isData (withTarget isData g m) = g.
Proof. by destruct isData. Qed.

Lemma withTarget_target (isData : bool) (m : Metric) :
  withTarget isData (target isData m) m = m.
Proof. by destruct isData, m. Qed.

Lemma flattenWrite_loop_written (isData keep : bool) (path sep : string)
  (nestedObj g : gmap string value) (metric : Metric) :
  target isData metric = Some g →
  map_fold (flattenWrite isData keep path sep) (Done metric) nestedObj
  = Done (withTarget isData (Some (written keep path sep nestedObj g)) metric).
Proof.
  intros Hg.
  apply (map_fold_weak_ind
           (λ r s, r = Done (withTarget isData
                               (Some (written keep path sep s g)) metric))).
  - assert (written keep path sep ∅ g = g) as ->.
    { unfold written. rewrite kmap_empty, (left_id ∅ (∪)).
      rewrite decide_True by done. by destruct keep. }
    by rewrite <- Hg, withTarget_target.
  - intros k v s r Hk ->. unfold flattenWrite.
    rewrite target_withTarget, withTarget_withTarget. do 3 f_equal.
    change (path +:+ sep +:+ k) with (rootKey path sep k).
    unfold written. rewrite (kmap_insert (rootKey path sep)).
    destruct keep.
    + by rewrite insert_union_l.
    + rewrite (decide_False (P := <[k:=v]> s = ∅))
        by apply insert_non_empty.
      rewrite <- insert_union_l. case_decide as Hs; [|map_lookups].
      subst s. by rewrite kmap_empty, (left_id ∅ (∪)).
Qed.

End FlattenClosedForm.

(** ** What a flatten can change *)
Section FlattenGeneral.

(** A flatten that returns nil ran its write loop on an allocated target,
    over the children of a map or the flattened elements of an array. *)
Lemma flattenStructure_Done (first : string) (rest : list string)
  (separator : string) (keep : bool) (metric metric' : Metric)
  (isData : bool) :
  flattenStructure (first :: rest) separator keep metric isData = Done metric' →
  ∃ g nestedObj,
    target isData metric = Some g
    ∧ metric'
      = withTarget isData
          (Some (written keep
                   (if bool_decide (separator = "drop") then ""
                    else joinPath separator (first :: rest) first)
                   (if bool_decide (separator = "drop") then "" else separator)
                   nestedObj g))
          metric.
Proof.
  unfold flattenStructure.
  destruct (ExtractNestedObject (target isData metric) (first :: rest))
    as [obj| |] eqn:Hex; [|done..].
  set (leaf := index obj (List.last (first :: rest) first)) in *.
  assert (isNil leaf = false → isNilMap (target isData metric) = false) as Hal
    by (by eapply ExtractNestedObject_allocated).
  destruct leaf; try done.
  - destruct (target isData metric) as [g|] eqn:Hg; [|by specialize (Hal eq_refl)].
    rewrite (flattenWrite_loop_written _ _ _ _ _ g) by done.
    intros [= <-]. eauto.
  - destruct (target isData metric) as [g|] eqn:Hg; [|by specialize (Hal eq_refl)].
    rewrite (flattenWrite_loop_written _ _ _ _ _ g) by done.
    intros [= <-]. eauto.
Qed.

Lemma union_is_Some_r (m1 m2 : gmap string value) (j : string) :
  is_Some (m2 !! j) → is_Some ((m1 ∪ m2) !! j).
Proof.
  intros [v Hv]. destruct (m1 !! j) as [w|] eqn:Hw.
  - exists w. by apply lookup_union_Some_l.
  - exists v. by rewrite lookup_union_r.
Qed.

Lemma lookup_written_keep (path sep : string) (nestedObj g : gmap string value)
  (j : string) :
  is_Some (g !! j) → is_Some (written true path sep nestedObj g !! j).
Proof.
  intros Hj. unfold written. by apply union_is_Some_r.
Qed.

Lemma lookup_written_other (keep : bool) (path sep : string)
  (nestedObj g : gmap string value) (j : string) :
  j ≠ path →
  (∀ k, is_Some (nestedObj !! k) → j ≠ rootKey path sep k) →
  written keep path sep nestedObj g !! j = g !! j.
Proof.
  intros Hp Hk.
  assert (kmap (M2:=gmap string) (rootKey path sep) nestedObj !! j = None)
    as Hnone.
  { rewrite (lookup_kmap_None (rootKey path sep)). intros k Hj.
    destruct (nestedObj !! k) eqn:Hl; [|done]. by destruct (Hk k). }
  unfold written. destruct keep.
  - by rewrite lookup_union_r.
  - case_decide; [done|]. by rewrite lookup_delete_ne, lookup_union_r.
Qed.

Lemma lookup_written_child (keep : bool) (path sep : string)
  (nestedObj g : gmap string value) (k : string) (v : value) :
  nestedObj !! k = Some v →
  keep = true ∨ rootKey path sep k ≠ path →
  written keep path sep nestedObj g !! rootKey path sep k = Some v.
Proof.
  intros Hk Hor.
  assert ((kmap (rootKey path sep) nestedObj ∪ g) !! rootKey path sep k
          = Some v) as Hu.
  { apply lookup_union_Some_l. by rewrite (lookup_kmap (rootKey path sep)). }
  unfold written. destruct keep; [done|].
  rewrite decide_False by (intros ->; by rewrite lookup_empty in Hk).
  destruct Hor as [?|Hne]; [done|]. by rewrite lookup_delete_ne.
Qed.

(** With [KeepOriginal] a flatten only adds or overwrites keys; without it
    the only key that can disappear is the joined path. *)
Theorem flatten_keeps_keys (nestedPath : list string) (separator : string)
  (keep : bool) (metric metric' : Metric) (isData : bool) (j : string) :
  flattenStructure nestedPath separator keep metric isData = Done metric' →
  is_Some (commaOk (target isData metric) j) →
  keep = true
  ∨ j ≠ (if bool_decide (separator = "drop") then ""
         else joinPath separator nestedPath (default "" (head nestedPath))) →
  is_Some (commaOk (target isData metric') j).
Proof.
  destruct nestedPath as [|first rest]; [done|].
  intros (g & nestedObj & Hg & ->)%flattenStructure_Done Hj Hor.
  rewrite target_withTarget. rewrite Hg in Hj.
  unfold commaOk in *. cbn [mbind option_bind head default id] in *.
  destruct keep.
  - by apply lookup_written_keep.
  - destruct Hor as [?|Hne]; [done|]. unfold written.
    destruct (decide (nestedObj = ∅)); [done|].
    rewrite lookup_delete_ne by done. by apply union_is_Some_r.
Qed.

Lemma flatten_keeps_keys_witness :
  is_Some (commaOk
             (target true
                (mkMetric None None
                   (Some {[ "a_0_x" := VInt 1; "a_1_y" := VInt 2 ]})))
             "a_0_x").
Proof.
  apply (flatten_keeps_keys ["a"] "_" false
           (mkMetric None None (Some (<["a_0_x" := VInt 7]> array_xy))) _
           true "a_0_x").
  - vm_compute. reflexivity.
  - vm_compute. eauto.
  - right. vm_compute. discriminate.
Defined.

(** A flatten works on one side of the metric: the other map and the
    timestamp are as before. *)
Lemma flattenStructure_frame (nestedPath : list string) (separator : string)
  (keep : bool) (metric metric' : Metric) (isData : bool) :
  flattenStructure nestedPath separator keep metric isData = Done metric' →
  Time metric' = Time metric
  ∧ target (negb isData) metric' = target (negb isData) metric.
Proof.
  destruct nestedPath as [|first rest]; [done|].
  intros (g & nestedObj & Hg & ->)%flattenStructure_Done.
  by destruct isData.
Qed.

Lemma applyFlatten_frame (paths : list (list string)) (separator : string)
  (keep isData : bool) (metric : Metric) :
  Time (fst (applyFlatten paths separator keep isData metric)) = Time metric
  ∧ target (negb isData) (fst (applyFlatten paths separator keep isData metric))
    = target (negb isData) metric.
Proof.
  revert metric. induction paths as [|p paths IH]; intros metric; [done|].
  simpl.
  destruct (flattenStructure p separator keep metric isData) as [m'| |] eqn:Hf;
    [|apply IH|done].
  apply flattenStructure_frame in Hf as [Ht Ho].
  destruct (IH m') as [IHt IHo]. split; congruence.
Qed.

End FlattenGeneral.

(** ** Flattening one top-level key *)
Section FlattenOneKey.

Lemma joinPath_single (separator p : string) : joinPath separator [p] p = p.
Proof. unfold joinPath. simpl. by rewrite andb_false_r. Qed.

Lemma app_length (a b : string) :
  String.length (a +:+ b) = String.length a + String.length b.
Proof. induction a as [|c a IH]; simpl; [done|]. by rewrite IH. Qed.

Lemma rootKey_ne_path (path sep k : string) :
  sep ≠ "" → rootKey path sep k ≠ path.
Proof.
  intros Hs Heq. apply (f_equal String.length) in Heq.
  unfold rootKey in Heq. rewrite !app_length in Heq.
  destruct sep; [done|]. simpl in Heq. lia.
Qed.

(** The flatten of a nested map under a top-level key, in closed form. *)
Lemma flatten_map_leaf (metric : Metric) (isData keep : bool) (p sep : string)
  (g nested : gmap string value) :
  target isData metric = Some g →
  g !! p = Some (VMap nested) →
  flattenStructure [p] sep keep metric isData
  = Done (withTarget isData
            (Some (written keep
                     (if bool_decide (sep = "drop") then "" else p)
                     (if bool_decide (sep = "drop") then "" else sep)
                     nested g))
            metric).
Proof.
  intros Hg Hp. unfold flattenStructure. rewrite joinPath_single. simpl.
  rewrite Hg. unfold index, commaOk. simpl. rewrite Hp. simpl.
  by apply flattenWrite_loop_written.
Qed.

(** The flatten of an array under a top-level key, in closed form. *)
Lemma flatten_list_leaf (metric : Metric) (isData keep : bool) (p sep : string)
  (g : gmap string value) (arr : list value) :
  target isData metric = Some g →
  g !! p = Some (VList arr) →
  flattenStructure [p] sep keep metric isData
  = Done (withTarget isData
            (Some (written keep
                     (if bool_decide (sep = "drop") then "" else p)
                     (if bool_decide (sep = "drop") then "" else sep)
                     (flattenArray
                        (if bool_decide (sep = "drop") then "" else sep)
                        0 arr ∅)
                     g))
            metric).
Proof.
  intros Hg Hp. unfold flattenStructure. rewrite joinPath_single. simpl.
  rewrite Hg. unfold index, commaOk. simpl. rewrite Hp. simpl.
  by apply flattenWrite_loop_written.
Qed.

(** Flattening the nested map [nested] found under the top-level key [p],
    with a separator other than ["drop"], succeeds; every child [k] is then
    at the root under [p + separator + k] (unless that key is [p] itself
    and the original is not kept); every key that is neither [p] nor the
    root key of a child is as before; and [p] is gone when the original is
    not kept and there was a child. *)
Theorem flatten_children_at_root (metric : Metric) (isData keep : bool)
  (p sep : string) (g nested : gmap string value) :
  sep ≠ "drop" →
  target isData metric = Some g →
  g !! p = Some (VMap nested) →
  ∃ g',
    flattenStructure [p] sep keep metric isData
    = Done (withTarget isData (Some g') metric)
    ∧ (∀ k v, nested !! k = Some v →
              keep = true ∨ p +:+ sep +:+ k ≠ p →
              g' !! (p +:+ sep +:+ k) = Some v)
    ∧ (∀ j, j ≠ p →
            (∀ k, is_Some (nested !! k) → j ≠ p +:+ sep +:+ k) →
            g' !! j = g !! j)
    ∧ (keep = false → nested ≠ ∅ → g' !! p = None).
Proof.
  intros Hsep Hg Hp. eexists. split.
  { rewrite (flatten_map_leaf _ _ _ _ _ g nested) by done.
    rewrite bool_decide_false by done. reflexivity. }
  split_and!.
  - intros k v Hk Hor. by apply lookup_written_child.
  - intros j Hj Hk. by apply lookup_written_other.
  - intros -> Hne. unfold written. rewrite decide_False by done.
    apply lookup_delete_eq.
Qed.

Lemma flatten_children_at_root_witness :
  ∃ g',
    flattenStructure ["net"] "__" false
      (mkMetric None None
         (Some {[ "net" := VMap {[ "rx" := VInt 10 ]}; "up" := VBool true ]}))
      true
    = Done (mkMetric None None (Some g'))
    ∧ g' !! "net__rx" = Some (VInt 10)
    ∧ g' !! "up" = Some (VBool true)
    ∧ g' !! "net" = None.
Proof.
  destruct (flatten_children_at_root
              (mkMetric None None
                 (Some {[ "net" := VMap {[ "rx" := VInt 10 ]};
                          "up" := VBool true ]}))
              true false "net" "__"
              {[ "net" := VMap {[ "rx" := VInt 10 ]}; "up" := VBool true ]}
              {[ "rx" := VInt 10 ]})
    as (g' & Hrun & Hchild & Hother & Hgone);
    [discriminate|reflexivity|vm_compute; reflexivity|].
  exists g'. split_and!.
  - exact Hrun.
  - apply (Hchild "rx" (VInt 10)); [vm_compute; reflexivity|].
    right. discriminate.
  - rewrite (Hother "up"); [vm_compute; reflexivity|discriminate|].
    intros k [v Hk]. destruct (decide (k = "rx")) as [->|Hne]; [discriminate|].
    by rewrite lookup_singleton_ne in Hk.
  - apply Hgone; [reflexivity|]. apply insert_non_empty.
Defined.

(** Flattening an empty nested map changes nothing: without a child the
    write loop never runs, so the original key stays even when
    [KeepOriginal] is false. *)
Theorem flatten_empty_object_is_noop (metric : Metric) (isData keep : bool)
  (p sep : string) (g : gmap string value) :
  target isData metric = Some g →
  g !! p = Some (VMap ∅) →
  flattenStructure [p] sep keep metric isData = Done metric.
Proof.
  intros Hg Hp. rewrite (flatten_map_leaf _ _ _ _ _ g ∅) by done.
  unfold written. rewrite kmap_empty, (left_id ∅ (∪)).
  rewrite decide_True by done.
  assert ((if keep then g else g) = g) as -> by by destruct keep.
  by rewrite <- Hg, withTarget_target.
Qed.

Lemma flatten_empty_object_is_noop_witness :
  flattenStructure ["a"] "_" false
    (mkMetric None None (Some {[ "a" := VMap ∅ ]})) true
  = Done (mkMetric None None (Some {[ "a" := VMap ∅ ]})).
Proof.
  apply (flatten_empty_object_is_noop
           (mkMetric None None (Some {[ "a" := VMap ∅ ]}))
           true false "a" "_" {[ "a" := VMap ∅ ]});
    [reflexivity|vm_compute; reflexivity].
Defined.

(** A flatten of one top-level key fails, with the message of the failed
    cast, exactly when the key is missing (also on a nil map) or holds
    something that is neither a map nor an array; it never panics. *)
Theorem flatten_fails_iff_not_nested (metric : Metric) (isData keep : bool)
  (p sep : string) :
  (flattenStructure [p] sep keep metric isData
   = Fail "failed to cast to array"
   ↔ match index (target isData metric) p with
     | VMap _ | VList _ => False
     | _ => True
     end)
  ∧ (∀ e, flattenStructure [p] sep keep metric isData = Fail e →
          e = "failed to cast to array").
Proof.
  destruct (target isData metric) as [g|] eqn:Hg.
  - destruct (g !! p) as [leaf|] eqn:Hp.
    + destruct leaf;
        try (unfold flattenStructure; rewrite joinPath_single; simpl;
             rewrite Hg; unfold index, commaOk; simpl; rewrite Hp; simpl;
             split; [done|by intros e [= <-]]).
      * rewrite (flatten_map_leaf _ _ _ _ _ g m) by done.
        unfold index, commaOk. simpl. rewrite Hp. simpl. split; [|done].
        split; [done|intros []].
      * rewrite (flatten_list_leaf _ _ _ _ _ g l) by done.
        unfold index, commaOk. simpl. rewrite Hp. simpl. split; [|done].
        split; [done|intros []].
    + unfold flattenStructure. rewrite joinPath_single. simpl.
      rewrite Hg. unfold index, commaOk. simpl. rewrite Hp. simpl.
      split; [done|by intros e [= <-]].
  - unfold flattenStructure. rewrite joinPath_single. simpl. rewrite Hg.
    simpl. split; [done|by intros e [= <-]].
Qed.

End FlattenOneKey.

Lemma flatten_fails_iff_not_nested_witness :
  flattenStructure ["x"] "_" false
    (mkMetric None None (Some {[ "x" := VInt 1 ]})) true
  = Fail "failed to cast to array".
Proof.
  apply (proj1 (flatten_fails_iff_not_nested
                  (mkMetric None None (Some {[ "x" := VInt 1 ]}))
                  true false "x" "_")).
  vm_compute. exact I.
Defined.

(** ** Flattening an array *)
Section FlattenArray.

(** The decimal rendering of an index is never empty. *)
Lemma pretty_N_go_nonempty (x : N) (s : string) :
  s ≠ "" → pretty_N_go x s ≠ "".
Proof.
  revert s. induction (N.lt_wf_0 x) as [x _ IH]. intros s Hs.
  destruct (decide (x = 0)%N) as [->|Hx]; [by rewrite pretty_N_go_0|].
  rewrite pretty_N_go_step by lia. apply IH; [|done].
  apply N.div_lt; lia.
Qed.

Lemma pretty_nat_nonempty (i : nat) : pretty i ≠ "".
Proof.
  unfold pretty, pretty_nat, pretty, pretty_N.
  case_decide; [done|].
  rewrite pretty_N_go_step by lia. by apply pretty_N_go_nonempty.
Qed.

(** An array without maps is flattened to its elements under their
    indices. *)
Lemma flattenArray_scalars (sep : string) (arr : list value) :
  Forall scalar arr →
  ∀ (i0 : nat) (acc : gmap string value),
    (∀ j v, arr !! j = Some v →
            flattenArray sep i0 arr acc !! pretty (i0 + j) = Some v)
    ∧ (∀ key, (∀ j, j < length arr → key ≠ pretty (i0 + j)) →
              flattenArray sep i0 arr acc !! key = acc !! key).
Proof.
  induction 1 as [|val arr Hval Harr IH]; intros i0 acc.
  { split; [done|]. intros key _. done. }
  assert (flattenArray sep i0 (val :: arr) acc
          = flattenArray sep (S i0) arr (<[pretty i0 := val]> acc)) as ->.
  { simpl. by destruct val. }
  destruct (IH (S i0) (<[pretty i0 := val]> acc)) as [IHin IHout].
  split.
  - intros [|j] v Hj; simpl in Hj.
    + inversion Hj; subst v. rewrite Nat.add_0_r.
      rewrite IHout; [apply lookup_insert_eq|].
      intros j _ Heq. apply (inj pretty) in Heq. lia.
    + replace (i0 + S j) with (S i0 + j) by lia. by apply IHin.
  - intros key Hkey. rewrite IHout.
    + apply lookup_insert_ne. intros Heq.
      apply (Hkey 0); [simpl; lia|]. by rewrite Nat.add_0_r.
    + intros j Hj. replace (S i0 + j) with (i0 + S j) by lia.
      apply Hkey. simpl. lia.
Qed.

(** Flattening an array of scalars found under the top-level key [p], with
    a separator other than ["drop"], puts element [i] at the root under
    [p + separator + i]; the key [p] is gone when the original is not kept
    and the array is not empty. *)
Theorem flatten_array_of_scalars (metric : Metric) (isData keep : bool)
  (p sep : string) (g : gmap string value) (arr : list value) :
  sep ≠ "drop" →
  target isData metric = Some g →
  g !! p = Some (VList arr) →
  Forall scalar arr →
  ∃ g',
    flattenStructure [p] sep keep metric isData
    = Done (withTarget isData (Some g') metric)
    ∧ (∀ i v, arr !! i = Some v → g' !! (p +:+ sep +:+ pretty i) = Some v)
    ∧ (keep = false → arr ≠ [] → g' !! p = None).
Proof.
  intros Hsep Hg Hp Hsc. eexists. split.
  { rewrite (flatten_list_leaf _ _ _ _ _ g arr) by done.
    rewrite bool_decide_false by done. reflexivity. }
  destruct (flattenArray_scalars sep arr Hsc 0 ∅) as [Hin Hout].
  split.
  - intros i v Hi. apply lookup_written_child; [by apply Hin|].
    right. intros Heq. apply (f_equal String.length) in Heq.
    unfold rootKey in Heq. rewrite !app_length in Heq.
    pose proof (pretty_nat_nonempty i) as Hne.
    destruct (pretty i); [done|]. simpl in Heq. lia.
  - intros -> Hne. unfold written.
    rewrite decide_False; [apply lookup_delete_eq|].
    destruct arr as [|v arr]; [done|]. intros Hempty.
    pose proof (Hin 0 v eq_refl) as H0. rewrite Hempty in H0.
    by rewrite lookup_empty in H0.
Qed.

Lemma flatten_array_of_scalars_witness :
  ∃ g',
    flattenStructure ["a"] "_" false
      (mkMetric None None (Some {[ "a" := VList [VInt 7; VStr "x"] ]})) true
    = Done (mkMetric None None (Some g'))
    ∧ g' !! "a_1" = Some (VStr "x")
    ∧ g' !! "a" = None.
Proof.
  destruct (flatten_array_of_scalars
              (mkMetric None None (Some {[ "a" := VList [VInt 7; VStr "x"] ]}))
              true false "a" "_" {[ "a" := VList [VInt 7; VStr "x"] ]}
              [VInt 7; VStr "x"])
    as (g' & Hrun & Hin & Hgone);
    [discriminate|reflexivity|vm_compute; reflexivity
    |repeat constructor|].
  exists g'. split_and!; [exact Hrun| |].
  - apply (Hin 1 (VStr "x")). reflexivity.
  - apply Hgone; [reflexivity|discriminate].
Defined.

End FlattenArray.

(** ** Flattening below the top level *)
Section FlattenNestedPath.

Lemma joinLoop_length (sep : string) (rest : list string) (acc : string) :
  (String.length acc
   ≤ String.length (foldl (λ acc p, acc +:+ sep +:+ p) acc rest))%nat.
Proof.
  revert acc. induction rest as [|p rest IH]; intros acc; simpl; [done|].
  etrans; [|apply IH]. rewrite app_length. lia.
Qed.

Lemma joinPath_longer (sep p0 p1 : string) (rest : list string) :
  sep ≠ "drop" → sep ≠ "" →
  (String.length p0 < String.length (joinPath sep (p0 :: p1 :: rest) p0))%nat.
Proof.
  intros Hdrop Hsep. unfold joinPath.
  rewrite bool_decide_false by done. simpl.
  eapply Nat.lt_le_trans; [|apply joinLoop_length].
  rewrite !app_length. destruct sep; [done|]. simpl. lia.
Qed.

(** A flatten along a path of two or more keys, with a separator that is
    neither empty nor ["drop"], never touches the first key of the path:
    the nested original stays at the root whether [KeepOriginal] is set or
    not, since the key that is deleted is the joined path. *)
Theorem flatten_nested_path_keeps_root (p0 p1 : string) (rest : list string)
  (sep : string) (keep : bool) (metric metric' : Metric) (isData : bool) :
  sep ≠ "drop" → sep ≠ "" →
  flattenStructure (p0 :: p1 :: rest) sep keep metric isData = Done metric' →
  commaOk (target isData metric') p0 = commaOk (target isData metric) p0.
Proof.
  intros Hdrop Hsep (g & nestedObj & Hg & ->)%flattenStructure_Done.
  rewrite target_withTarget, Hg. rewrite bool_decide_false by done.
  unfold commaOk. simpl.
  pose proof (joinPath_longer sep p0 p1 rest Hdrop Hsep) as Hlen.
  apply lookup_written_other.
  - intros Heq. rewrite <- Heq in Hlen. lia.
  - intros k _ Heq. apply (f_equal String.length) in Heq.
    unfold rootKey in Heq. rewrite !app_length in Heq. lia.
Qed.

Lemma flatten_nested_path_keeps_root_witness :
  commaOk
    (target true
       (mkMetric None None
          (Some (<["a_b_c" := VInt 1]>
                   {[ "a" := VMap {[ "b" := VMap {[ "c" := VInt 1 ]} ]} ]}))))
    "a"
  = commaOk
      (target true
         (mkMetric None None
            (Some {[ "a" := VMap {[ "b" := VMap {[ "c" := VInt 1 ]} ]} ]})))
      "a".
Proof.
  apply (flatten_nested_path_keeps_root "a" "b" [] "_" false
           (mkMetric None None
              (Some {[ "a" := VMap {[ "b" := VMap {[ "c" := VInt 1 ]} ]} ]}))
           _ true); [discriminate..|].
  vm_compute. reflexivity.
Defined.

End FlattenNestedPath.

(** ** What the loop over the metrics keeps *)
Section EachMetricShape.

Variable body : Metric → Metric * outcome.

(** A relation between a metric and what the body leaves of it relates the
    metrics before and after the loop, however the loop ends. *)
Lemma eachMetric_Forall2 (R : Metric → Metric → Prop) (ms : list Metric) :
  (∀ m, R m m) → (∀ m, R m (fst (body m))) →
  Forall2 R ms (fst (eachMetric body ms)).
Proof.
  intros Hrefl Hbody.
  assert (∀ l, Forall2 R l l) as Hdiag
    by (intros l; induction l; by constructor).
  induction ms as [|m ms IH]; [constructor|].
  rewrite eachMetric_cons. destruct (snd (body m)); simpl; by constructor.
Qed.

(** A loop that does not end normally stopped at one metric: the metrics
    before it went through the body, the metrics after it are as they
    were. *)
Lemma eachMetric_stopped (ms : list Metric) :
  snd (eachMetric body ms) ≠ Ok →
  ∃ pre m post,
    ms = (pre ++ m :: post)%list
    ∧ Forall (λ x, snd (body x) = Ok) pre
    ∧ snd (body m) = snd (eachMetric body ms)
    ∧ fst (eachMetric body ms)
      = (((fst ∘ body) <$> pre) ++ fst (body m) :: post)%list.
Proof.
  induction ms as [|m0 ms IH]; [done|].
  rewrite eachMetric_cons. destruct (snd (body m0)) eqn:Hb; simpl.
  - intros (pre & m & post & -> & Hpre & Hm & Hres)%IH.
    exists (m0 :: pre), m, post. split_and!; [done| |done|].
    + by constructor.
    + simpl. by rewrite Hres.
  - intros _. exists [], m0, ms. by split_and!.
  - intros _. exists [], m0, ms. by split_and!.
Qed.

End EachMetricShape.

(** ** What the transformers leave alone *)
Section Frames.

Lemma extractOne_frame (metric : Metric) (extract : string) :
  Time (Metadata.extractOne metric extract) = Time metric.
Proof.
  unfold Metadata.extractOne. by destruct (commaOk (Data metric) extract).
Qed.

Lemma copyOne_frame (metric : Metric) (cpy : SourceDestination) :
  Time (Metadata.copyOne metric cpy) = Time metric.
Proof.
  unfold Metadata.copyOne.
  destruct (commaOk (Data metric) (Source cpy)); [|done].
  by destruct (negb _).
Qed.

Lemma foldl_frame {A : Type} (f : Metric → A → Metric) (l : list A)
  (metric : Metric) :
  (∀ m a, Time (f m a) = Time m) → Time (foldl f metric l) = Time metric.
Proof.
  intros Hf. revert metric. induction l as [|a l IH]; intros metric; [done|].
  simpl. by rewrite IH, Hf.
Qed.

Lemma atBan_frame (meta : Metadata.t) (metric : Metric) :
  Time (Metadata.atBan meta metric) = Time metric
  ∧ (Metadata.ExtractFromData meta = [] → Metadata.CopyFromData meta = [] →
     Data (Metadata.atBan meta metric) = Data metric).
Proof.
  unfold Metadata.atBan. split.
  - simpl. rewrite (foldl_frame _ _ _ copyOne_frame).
    by rewrite (foldl_frame _ _ _ extractOne_frame).
  - by intros -> ->.
Qed.

Lemma Metadata_body_frame (meta : Metadata.t) (metric : Metric) :
  Time (fst (Metadata.transformMetric meta metric)) = Time metric
  ∧ (Metadata.ExtractFromData meta = [] → Metadata.CopyFromData meta = [] →
     Data (fst (Metadata.transformMetric meta metric)) = Data metric).
Proof.
  unfold Metadata.transformMetric. cbv zeta.
  destruct (checkRequire _ _ _); [done|].
  destruct (atBan_frame meta (Metadata.atRequire meta metric)) as [Ht Hd].
  destruct (checkBan _ _ _); [done|].
  destruct (applyFlatten_frame (Metadata.Flatten meta)
              (Metadata.FlattenSeparator meta) (Metadata.KeepOriginal meta)
              false
              (withMetadata
                 (applyRename (Metadata.Rename meta)
                    (Metadata (Metadata.atBan meta
                                 (Metadata.atRequire meta metric))))
                 (Metadata.atBan meta (Metadata.atRequire meta metric))))
    as [Hft Hfd].
  split.
  - rewrite Hft. unfold withMetadata at 1. cbn [Time]. by rewrite Ht.
  - intros He Hc. cbn [target negb] in Hfd. rewrite Hfd.
    unfold withMetadata at 1. cbn [Data]. by rewrite Hd.
Qed.

Lemma Data_body_frame (data : Data.t) (metric : Metric) :
  Time (fst (Data.transformMetric data metric)) = Time metric
  ∧ Metadata (fst (Data.transformMetric data metric)) = Metadata metric.
Proof.
  unfold Data.transformMetric, Data.atRequire. cbv zeta.
  destruct (applyFlatten_frame (Data.Flatten data) (Data.FlattenSeparator data)
              (Data.KeepOriginal data) true
              (withData (applySet (Data.Set_ data) (Data metric)) metric))
    as [Hft Hfm].
  destruct (applyFlatten _ _ _ _ _) as [reached o]. simpl in Hft, Hfm.
  destruct o; [|done..].
  destruct (checkRequire _ _ _); [done|]. cbv zeta.
  by destruct (checkBan _ _ _).
Qed.

(** Whatever [Metadata.Transform] returns, the container has the same
    template and the same number of metrics, in the same order and with the
    same timestamps; and when the transformer has no ExtractFromData and no
    CopyFromData rule, the data of every metric is as before. *)
Theorem Metadata_Transform_frame (meta : Metadata.t) (c : Container) :
  Template (cont (Metadata.Transform meta c)) = Template c
  ∧ Forall2 (λ m m', Time m' = Time m)
            (Metrics c) (Metrics (cont (Metadata.Transform meta c)))
  ∧ (Metadata.ExtractFromData meta = [] → Metadata.CopyFromData meta = [] →
     Forall2 (λ m m', Data m' = Data m)
             (Metrics c) (Metrics (cont (Metadata.Transform meta c)))).
Proof.
  unfold Metadata.Transform.
  pose proof (eachMetric_Forall2 (Metadata.transformMetric meta)) as HF.
  destruct (eachMetric _ _) as [ms o] eqn:Hrun.
  cbn [cont withMetrics Metrics Template]. split_and!; [done| |].
  - change ms with (fst (ms, o)). rewrite <- Hrun.
    apply HF; [done|]. intros m. apply Metadata_body_frame.
  - intros He Hc. change ms with (fst (ms, o)). rewrite <- Hrun.
    apply HF; [done|]. intros m. by apply Metadata_body_frame.
Qed.

Lemma Metadata_Transform_frame_witness :
  Forall2 (λ m m', Data m' = Data m)
    (Metrics (oneMetric (Some {[ "k" := VInt 1 ]}) (Some {[ "d" := VInt 2 ]})))
    (Metrics (cont (Metadata.Transform (metaRename
                                          [mkSourceDestination "k" "j" false])
                      (oneMetric (Some {[ "k" := VInt 1 ]})
                                 (Some {[ "d" := VInt 2 ]}))))).
Proof.
  apply (proj2 (proj2 (Metadata_Transform_frame
                         (metaRename [mkSourceDestination "k" "j" false])
                         (oneMetric (Some {[ "k" := VInt 1 ]})
                                    (Some {[ "d" := VInt 2 ]})))));
    reflexivity.
Defined.

(** Whatever [Data.Transform] returns, the container has the same template
    and the same number of metrics, in the same order, with the same
    timestamps and the same metadata. *)
Theorem Data_Transform_frame (data : Data.t) (c : Container) :
  Template (cont (Data.Transform data c)) = Template c
  ∧ Forall2 (λ m m', Time m' = Time m ∧ Metadata m' = Metadata m)
            (Metrics c) (Metrics (cont (Data.Transform data c))).
Proof.
  unfold Data.Transform. cbv zeta.
  pose proof (eachMetric_Forall2
                (Data.transformMetric (Data.defaultSeparator data))) as HF.
  destruct (eachMetric _ _) as [ms o] eqn:Hrun.
  cbn [cont withMetrics Metrics Template]. split; [done|].
  change ms with (fst (ms, o)). rewrite <- Hrun.
  apply HF; [done|]. intros m. apply Data_body_frame.
Qed.

End Frames.

(** ** How the transformers end *)
Section Endings.




(** [Metadata.Transform] on a transformer without an empty flatten path
    returns nil exactly when every metric passes both checks: each required
    key is non-null after the set loop, and each banned key is missing or
    null after the extract, copy and remove loops. *)
Theorem Metadata_Transform_succeeds_iff (meta : Metadata.t) (c : Container) :
  [] ∉ Metadata.Flatten meta →
  (out (Metadata.Transform meta c) = Ok
   ↔ ∀ m, m ∈ Metrics c →
       (∀ k, k ∈ Metadata.Require meta →
             isNil (index (Metadata (Metadata.atRequire meta m)) k) = false)
       ∧ (∀ k, k ∈ Metadata.Ban meta →
               isNil (index (Metadata (Metadata.atBan meta
                                         (Metadata.atRequire meta m))) k)
               = true)).
Proof.
  intros Hfl.
  assert (∀ m, snd (Metadata.transformMetric meta m) = Ok
               ↔ checkRequire "metadata" (Metadata.Require meta)
                   (Metadata (Metadata.atRequire meta m)) = None
                 ∧ checkBan "metadata" (Metadata.Ban meta)
                     (Metadata (Metadata.atBan meta
                                  (Metadata.atRequire meta m))) = None)
    as Hbody.
  { intros m. unfold Metadata.transformMetric. cbv zeta.
    destruct (checkRequire _ _ _); [by split; [|intros []]|].
    destruct (checkBan _ _ _); [by split; [|intros []]|].
    rewrite applyFlatten_out, bool_decide_false by done. done. }
  unfold Metadata.Transform.
  destruct (eachMetric _ _) as [ms o] eqn:Hrun. cbn [out]. split.
  - intros -> m Hm.
    apply list_elem_of_lookup in Hm as [i Hi].
    destruct (eachMetric_ok_lookup _ _ _ Hrun i m Hi) as (m' & _ & Hb).
    assert (snd (Metadata.transformMetric meta m) = Ok) as Hok
      by by rewrite Hb.
    apply Hbody in Hok as [Hreq Hban].
    by rewrite checkRequire_None in Hreq; rewrite checkBan_None in Hban.
  - intros Hall. change o with (snd (ms, o)). rewrite <- Hrun.
    clear Hrun. induction (Metrics c) as [|m rest IH]; [done|].
    rewrite eachMetric_cons.
    assert (snd (Metadata.transformMetric meta m) = Ok) as ->.
    { apply Hbody. rewrite checkRequire_None, checkBan_None.
      apply Hall. by left. }
    simpl. apply IH. intros m0 Hm0. apply Hall. by right.
Qed.

Lemma Metadata_Transform_succeeds_iff_witness :
  out (Metadata.Transform (metaRequire ["k"])
         (oneMetric (Some {[ "k" := VInt 1 ]}) None)) = Ok.
Proof.
  apply (proj2 (Metadata_Transform_succeeds_iff (metaRequire ["k"])
                  (oneMetric (Some {[ "k" := VInt 1 ]}) None)
                  ltac:(apply not_elem_of_nil))).
  intros m Hm. apply list_elem_of_singleton in Hm. subst m. split.
  - intros k Hk. apply list_elem_of_singleton in Hk. subst k. reflexivity.
  - intros k Hk. by apply elem_of_nil in Hk.
Defined.

(** When [Metadata.Transform] returns an error it stopped at one metric:
    the metrics before it went through all the rules, the metric itself
    failed a check, and the metrics after it are returned as they came. *)
Theorem Metadata_Transform_error_stops (meta : Metadata.t) (c : Container)
  (e : error) :
  out (Metadata.Transform meta c) = Err e →
  ∃ pre m post,
    Metrics c = (pre ++ m :: post)%list
    ∧ Forall (λ x, snd (Metadata.transformMetric meta x) = Ok) pre
    ∧ snd (Metadata.transformMetric meta m) = Err e
    ∧ Metrics (cont (Metadata.Transform meta c))
      = (((fst ∘ Metadata.transformMetric meta) <$> pre)
         ++ fst (Metadata.transformMetric meta m) :: post)%list.
Proof.
  unfold Metadata.Transform.
  pose proof (eachMetric_stopped (Metadata.transformMetric meta) (Metrics c))
    as Hstop.
  destruct (eachMetric _ _) as [ms o]. cbn [out cont withMetrics Metrics].
  intros ->. simpl in Hstop.
  destruct (Hstop ltac:(done)) as (pre & m & post & ? & ? & ? & ?).
  by exists pre, m, post.
Qed.

Lemma Metadata_Transform_error_stops_witness :
  ∃ pre m post,
    [mkMetric None None None; mkMetric None (Some {[ "k" := VInt 1 ]}) None]
    = (pre ++ m :: post)%list
    ∧ Metrics (cont (Metadata.Transform (metaRequire ["k"])
                       (mkContainer None
                          [mkMetric None None None;
                           mkMetric None (Some {[ "k" := VInt 1 ]}) None])))
      = (((fst ∘ Metadata.transformMetric (metaRequire ["k"])) <$> pre)
         ++ fst (Metadata.transformMetric (metaRequire ["k"]) m) :: post)%list.
Proof.
  destruct (Metadata_Transform_error_stops (metaRequire ["k"])
              (mkContainer None
                 [mkMetric None None None;
                  mkMetric None (Some {[ "k" := VInt 1 ]}) None])
              "missing required metadata field k")
    as (pre & m & post & Hsplit & _ & _ & Hres); [vm_compute; reflexivity|].
  exists pre, m, post. split; [exact Hsplit|exact Hres].
Defined.

End Endings.

(** ** The rules one by one *)
Section Rules.

Lemma withMetrics_id (c : Container) : withMetrics (Metrics c) c = c.
Proof. by destruct c. Qed.

Lemma fmap_fixed (f : Metric → Metric) (ms : list Metric) :
  (∀ m, m ∈ ms → f m = m) → f <$> ms = ms.
Proof.
  intros Hf. induction ms as [|m ms IH]; [done|].
  rewrite fmap_cons, Hf by (by left). f_equal.
  apply IH. intros m0 Hm0. apply Hf. by right.
Qed.

Lemma Forall2_fmap_self (R : Metric → Metric → Prop) (f : Metric → Metric)
  (ms : list Metric) :
  (∀ m, R m (f m)) → Forall2 R ms (f <$> ms).
Proof. intros HR. induction ms; by constructor. Qed.

Lemma eachMetric_fst_fixed (body : Metric → Metric * outcome)
  (ms : list Metric) :
  (∀ m, fst (body m) = m) → fst (eachMetric body ms) = ms.
Proof.
  intros Hb. induction ms as [|m ms IH]; [done|].
  rewrite eachMetric_cons. destruct (snd (body m)); simpl; by rewrite Hb, ?IH.
Qed.

(** A Metadata transformer with no rule but [Require] and [Ban] only
    checks: whatever it returns, the container is as it came. *)
Theorem checks_do_not_write (req ban : list string) (sep : string)
  (keep : bool) (c : Container) :
  cont (Metadata.Transform
          (Metadata.mk ∅ req [] [] [] ban [] sep [] keep) c) = c.
Proof.
  unfold Metadata.Transform.
  pose proof (eachMetric_fst_fixed
                (Metadata.transformMetric
                   (Metadata.mk ∅ req [] [] [] ban [] sep [] keep))
                (Metrics c)) as Hfix.
  destruct (eachMetric _ _) as [ms o]. cbn [cont]. simpl in Hfix.
  rewrite Hfix; [apply withMetrics_id|].
  intros m. unfold Metadata.transformMetric, Metadata.atBan,
    Metadata.atRequire. simpl. rewrite applySet_empty, !withMetadata_id.
  destruct (checkRequire _ _ _); [done|].
  destruct (checkBan _ _ _); [done|]. simpl. by rewrite ?withMetadata_id.
Qed.

(** A transformer with only a non-empty [Set] succeeds and leaves on every
    metric the union of [Set] and the old map, [Set] winning: every listed
    key is assigned, a nil map is allocated, and the other keys stay.  This
    holds for the Metadata transformer on metadata and for the Data
    transformer on data. *)
Theorem Set_overrides (set : gmap string value) (sep : string) (keep : bool)
  (c : Container) :
  set ≠ ∅ →
  (out (Metadata.Transform (Metadata.mk set [] [] [] [] [] [] sep [] keep) c)
   = Ok
   ∧ Metrics (cont (Metadata.Transform
                      (Metadata.mk set [] [] [] [] [] [] sep [] keep) c))
     = (λ m, withMetadata (Some (set ∪ default ∅ (Metadata m))) m)
         <$> Metrics c)
  ∧ (out (Data.Transform (Data.mk set [] [] sep [] [] [] keep) c) = Ok
     ∧ Metrics (cont (Data.Transform (Data.mk set [] [] sep [] [] [] keep) c))
       = (λ m, withData (Some (set ∪ default ∅ (Data m))) m) <$> Metrics c).
Proof.
  intros Hset. split.
  - rewrite (Metadata_Transform_map _ c
               (λ m, withMetadata (Some (set ∪ default ∅ (Metadata m))) m));
      [done|].
    intros m. unfold Metadata.transformMetric, Metadata.atBan,
      Metadata.atRequire. simpl.
    by rewrite applySet_nonempty.
  - rewrite (Data_Transform_map _ c
               (λ m, withData (Some (set ∪ default ∅ (Data m))) m));
      [done|].
    intros m.
    assert (∀ s, Data.transformMetric (Data.mk set [] [] s [] [] [] keep) m
                 = (withData (Some (set ∪ default ∅ (Data m))) m, Ok)) as Hb.
    { intros s. unfold Data.transformMetric, Data.atRequire, Data.atBan.
      simpl. by rewrite applySet_nonempty. }
    unfold Data.defaultSeparator. simpl. case_bool_decide; apply Hb.
Qed.

Lemma Set_overrides_witness :
  Metrics (cont (Metadata.Transform
                   (Metadata.mk {[ "dc" := VStr "bergen1" ]}
                                [] [] [] [] [] [] "" [] false)
                   (oneMetric None None)))
  = (λ m, withMetadata
            (Some ({[ "dc" := VStr "bergen1" ]} ∪ default ∅ (Metadata m))) m)
      <$> Metrics (oneMetric None None).
Proof.
  apply (Set_overrides {[ "dc" := VStr "bergen1" ]} "" false
           (oneMetric None None)).
  apply insert_non_empty.
Defined.

Lemma applyRemove_lookup (fields : list string) (m : gomap) (k : string) :
  commaOk (applyRemove fields m) k
  = (if bool_decide (k ∈ fields) then None else commaOk m k)
  ∧ isNilMap (applyRemove fields m) = isNilMap m.
Proof.
  unfold applyRemove. revert m.
  induction fields as [|f fields IH]; intros m; simpl; [done|].
  destruct (IH (if isNilMap m then m else mapdelete f m)) as [IHl IHn].
  rewrite IHl, IHn. split; [|by destruct m].
  destruct m as [g|]; simpl.
  - destruct (decide (k = f)) as [->|Hne].
    + rewrite (bool_decide_true (f ∈ f :: fields)) by (by left).
      rewrite lookup_delete_eq. by case_bool_decide.
    + rewrite lookup_delete_ne by done.
      apply (f_equal (λ b : bool, if b then None else g !! k)).
      apply bool_decide_ext. rewrite elem_of_cons.
      split; [by right|by intros [?|?]].
  - by repeat case_bool_decide.
Qed.

(** A Metadata transformer with only [Remove] succeeds; afterwards every
    listed key is missing on every metric, every other key is as before, a
    nil map is still nil, and the data is untouched. *)
Theorem Remove_deletes_listed_keys (fields : list string) (sep : string)
  (keep : bool) (c : Container) :
  out (Metadata.Transform
         (Metadata.mk ∅ [] [] [] fields [] [] sep [] keep) c) = Ok
  ∧ Forall2 (λ m m',
               (∀ k, commaOk (Metadata m') k
                     = if bool_decide (k ∈ fields) then None
                       else commaOk (Metadata m) k)
               ∧ isNilMap (Metadata m') = isNilMap (Metadata m)
               ∧ Data m' = Data m)
      (Metrics c)
      (Metrics (cont (Metadata.Transform
                        (Metadata.mk ∅ [] [] [] fields [] [] sep [] keep) c))).
Proof.
  rewrite (Metadata_Transform_map _ c
             (λ m, withMetadata (applyRemove fields (Metadata m)) m)).
  2:{ intros m. unfold Metadata.transformMetric, Metadata.atBan,
        Metadata.atRequire. simpl.
      by rewrite applySet_empty, !withMetadata_id. }
  split; [done|]. cbn [cont withMetrics Metrics].
  apply Forall2_fmap_self. intros m. simpl. split_and!; [|by apply applyRemove_lookup|done].
  intros k. by apply applyRemove_lookup.
Qed.

(** One Rename rule [{s, d, keep}] on a metric whose metadata holds [v]
    under [s]: afterwards [d] holds [v] (overwriting what was there), [s]
    still holds [v] when [keep] is set and is missing when it is not, even
    when [d] is [s]; the other keys are as before.  A metric without the
    key [s], or with nil metadata, is left as it is. *)
Theorem Rename_one_rule (s d : string) (keep : bool) (c : Container) :
  out (Metadata.Transform (metaRename [mkSourceDestination s d keep]) c) = Ok
  ∧ Forall2 (λ m m',
               Data m' = Data m
               ∧ match commaOk (Metadata m) s with
                 | None => Metadata m' = Metadata m
                 | Some v =>
                     commaOk (Metadata m') s = (if keep then Some v else None)
                     ∧ (keep = true ∨ d ≠ s →
                        commaOk (Metadata m') d = Some v)
                     ∧ (∀ k, k ≠ s → k ≠ d →
                             commaOk (Metadata m') k = commaOk (Metadata m) k)
                 end)
      (Metrics c)
      (Metrics (cont (Metadata.Transform
                        (metaRename [mkSourceDestination s d keep]) c))).
Proof.
  rewrite (Metadata_Transform_map _ c _ (metaRename_body _)).
  split; [done|]. cbn [cont withMetrics Metrics].
  apply Forall2_fmap_self. intros m. split; [done|].
  destruct m as [t md dt]. cbn [Metadata withMetadata applyRename foldl].
  destruct (commaOk md s) as [v|] eqn:Hs.
  - destruct md as [g|]; [|done]. simpl in Hs.
    rewrite (renameOne_found _ _ _ _ _ Hs). unfold commaOk. simpl.
    destruct keep; split_and!.
    + destruct (decide (d = s)) as [->|Hne];
        [apply lookup_insert_eq|by rewrite lookup_insert_ne].
    + intros _. apply lookup_insert_eq.
    + intros k Hks Hkd. by rewrite lookup_insert_ne.
    + apply lookup_delete_eq.
    + intros [?|Hne]; [done|].
      by rewrite lookup_delete_ne, lookup_insert_eq.
    + intros k Hks Hkd. by rewrite lookup_delete_ne, lookup_insert_ne.
  - by rewrite renameOne_missing.
Qed.

Lemma renameOne_there_and_back (md : gomap) (s d : string) :
  commaOk md d = None →
  renameOne (renameOne md (mkSourceDestination s d false))
            (mkSourceDestination d s false) = md.
Proof.
  intros Hd. destruct md as [g|]; [|done]. simpl in Hd.
  destruct (g !! s) as [v|] eqn:Hs.
  - assert (d ≠ s) as Hne by (intros ->; congruence).
    rewrite (renameOne_found _ _ _ _ _ Hs).
    rewrite (renameOne_found _ d s false v)
      by by rewrite lookup_delete_ne, lookup_insert_eq.
    f_equal. apply map_eq. intros j.
    destruct (decide (j = d)) as [->|Hjd].
    { by rewrite lookup_delete_eq. }
    rewrite lookup_delete_ne by done.
    destruct (decide (j = s)) as [->|Hjs].
    { by rewrite lookup_insert_eq. }
    by rewrite lookup_insert_ne, lookup_delete_ne, lookup_insert_ne.
  - rewrite (renameOne_missing (Some g)) by done.
    by rewrite renameOne_missing.
Qed.

(** Renaming [s] to [d] and then [d] back to [s], both without keeping the
    source, gives back the container when no metric had the key [d]. *)
Theorem Rename_there_and_back (s d : string) (c : Container) :
  (∀ m, m ∈ Metrics c → commaOk (Metadata m) d = None) →
  out (Metadata.Transform
         (metaRename [mkSourceDestination s d false;
                      mkSourceDestination d s false]) c) = Ok
  ∧ cont (Metadata.Transform
            (metaRename [mkSourceDestination s d false;
                         mkSourceDestination d s false]) c) = c.
Proof.
  intros Hd. rewrite (Metadata_Transform_map _ c _ (metaRename_body _)).
  split; [done|]. cbn [cont].
  rewrite fmap_fixed; [apply withMetrics_id|].
  intros m Hm. cbn [applyRename foldl].
  rewrite renameOne_there_and_back by by apply Hd.
  apply withMetadata_id.
Qed.

Lemma Rename_there_and_back_witness :
  cont (Metadata.Transform
          (metaRename [mkSourceDestination "host" "node" false;
                       mkSourceDestination "node" "host" false])
          (oneMetric (Some {[ "host" := VStr "h1" ]}) None))
  = oneMetric (Some {[ "host" := VStr "h1" ]}) None.
Proof.
  apply (Rename_there_and_back "host" "node"
           (oneMetric (Some {[ "host" := VStr "h1" ]}) None)).
  intros m Hm. apply list_elem_of_singleton in Hm. subst m.
  vm_compute. reflexivity.
Defined.

End Rules.

Lemma Rename_one_rule_witness :
  Forall2 (λ m m',
             Data m' = Data m
             ∧ match commaOk (Metadata m) "k" with
               | None => Metadata m' = Metadata m
               | Some v =>
                   commaOk (Metadata m') "k" = None
                   ∧ (false = true ∨ "k" ≠ "k" →
                      commaOk (Metadata m') "k" = Some v)
                   ∧ (∀ k, k ≠ "k" → k ≠ "k" →
                           commaOk (Metadata m') k = commaOk (Metadata m) k)
               end)
    (Metrics (oneMetric (Some {[ "k" := VInt 1 ]}) None))
    (Metrics (cont (Metadata.Transform
                      (metaRename [mkSourceDestination "k" "k" false])
                      (oneMetric (Some {[ "k" := VInt 1 ]}) None)))).
Proof.
  exact (proj2 (Rename_one_rule "k" "k" false
                  (oneMetric (Some {[ "k" := VInt 1 ]}) None))).
Defined.

(** ** Copying and extracting *)
Section Copies.

Lemma copyOne_missing (metric : Metric) (cpy : SourceDestination) :
  commaOk (Data metric) (Source cpy) = None →
  Metadata.copyOne metric cpy = metric.
Proof. intros Hs. unfold Metadata.copyOne. by rewrite Hs. Qed.

Lemma extractOne_missing (metric : Metric) (extract : string) :
  commaOk (Data metric) extract = None →
  Metadata.extractOne metric extract = metric.
Proof. intros Hs. unfold Metadata.extractOne. by rewrite Hs. Qed.

(** Copy and extract rules whose source is in no metric's data change
    nothing: the transform succeeds and the container is as it came; in
    particular nil metadata is not allocated. *)
Theorem Copy_missing_source_is_noop (rules : list SourceDestination)
  (fields : list string) (c : Container) :
  ((∀ m r, m ∈ Metrics c → r ∈ rules → commaOk (Data m) (Source r) = None) →
   out (Metadata.Transform (metaCopy rules) c) = Ok
   ∧ cont (Metadata.Transform (metaCopy rules) c) = c)
  ∧ ((∀ m f, m ∈ Metrics c → f ∈ fields → commaOk (Data m) f = None) →
     out (Metadata.Transform (metaExtract fields) c) = Ok
     ∧ cont (Metadata.Transform (metaExtract fields) c) = c).
Proof.
  split; intros Hmiss.
  - rewrite (Metadata_Transform_map _ c _ (metaCopy_body _)).
    split; [done|]. cbn [cont].
    rewrite fmap_fixed; [apply withMetrics_id|].
    intros m Hm. specialize (λ r, Hmiss m r Hm).
    induction rules as [|r rules IH]; [done|]. simpl.
    rewrite copyOne_missing by (apply Hmiss; by left).
    apply IH. intros r0 Hr0. apply Hmiss. by right.
  - rewrite (Metadata_Transform_map _ c _ (metaExtract_body _)).
    split; [done|]. cbn [cont].
    rewrite fmap_fixed; [apply withMetrics_id|].
    intros m Hm. specialize (λ f, Hmiss m f Hm).
    induction fields as [|f fields IH]; [done|]. simpl.
    rewrite extractOne_missing by (apply Hmiss; by left).
    apply IH. intros f0 Hf0. apply Hmiss. by right.
Qed.

Lemma Copy_missing_source_is_noop_witness :
  cont (Metadata.Transform (metaCopy [mkSourceDestination "host" "" false])
          (oneMetric None (Some {[ "v" := VInt 42 ]})))
  = oneMetric None (Some {[ "v" := VInt 42 ]}).
Proof.
  apply (proj1 (Copy_missing_source_is_noop
                  [mkSourceDestination "host" "" false] []
                  (oneMetric None (Some {[ "v" := VInt 42 ]})))).
  intros m r Hm Hr.
  apply list_elem_of_singleton in Hm. apply list_elem_of_singleton in Hr.
  subst m r. vm_compute. reflexivity.
Defined.

(** One CopyFromData rule [{s, d, keep}] touches two keys only: in the data
    of every metric every key but [s] is as before, and in the metadata
    every key but the destination ([s] when [d] is empty) is as before. *)
Theorem Copy_touches_two_keys (s d : string) (keep : bool) (c : Container) :
  Forall2 (λ m m',
             (∀ k, k ≠ s → commaOk (Data m') k = commaOk (Data m) k)
             ∧ (∀ k, k ≠ (if bool_decide (d = "") then s else d) →
                     commaOk (Metadata m') k = commaOk (Metadata m) k))
    (Metrics c)
    (Metrics (cont (Metadata.Transform
                      (metaCopy [mkSourceDestination s d keep]) c))).
Proof.
  rewrite (Metadata_Transform_map _ c _ (metaCopy_body _)).
  cbn [cont withMetrics Metrics]. apply Forall2_fmap_self. intros m.
  cbn [foldl]. destruct (commaOk (Data m) s) as [v|] eqn:Hs.
  - rewrite (copyOne_found _ _ _ _ _ Hs). cbv zeta.
    destruct m as [t md dt]. destruct keep; simpl; split.
    + done.
    + intros k Hk. unfold commaOk. simpl.
      rewrite lookup_insert_ne by done. by destruct md.
    + intros k Hk. destruct dt as [g|]; [|done]. simpl.
      by rewrite lookup_delete_ne.
    + intros k Hk. unfold commaOk. simpl.
      rewrite lookup_insert_ne by done. by destruct md.
  - by rewrite copyOne_missing.
Qed.

Lemma Copy_touches_two_keys_witness :
  Forall2 (λ m m',
             (∀ k, k ≠ "host" → commaOk (Data m') k = commaOk (Data m) k)
             ∧ (∀ k, k ≠ (if bool_decide ("node" = "") then "host"
                          else "node") →
                     commaOk (Metadata m') k = commaOk (Metadata m) k))
    (Metrics (oneMetric None (Some {[ "host" := VStr "h1" ]})))
    (Metrics (cont (Metadata.Transform
                      (metaCopy [mkSourceDestination "host" "node" false])
                      (oneMetric None (Some {[ "host" := VStr "h1" ]}))))).
Proof.
  exact (Copy_touches_two_keys "host" "node" false
           (oneMetric None (Some {[ "host" := VStr "h1" ]}))).
Defined.

End Copies.

(** ** The place of the flatten step *)
Section FlattenOrder.

Lemma eachMetric_all_pass (body : Metric → Metric * outcome)
  (ms : list Metric) :
  (∀ m, m ∈ ms → snd (body m) = Ok) → snd (eachMetric body ms) = Ok.
Proof.
  intros Hok. induction ms as [|m ms IH]; [done|].
  rewrite eachMetric_cons, Hok by (by left). simpl.
  apply IH. intros m0 Hm0. apply Hok. by right.
Qed.

(** The Data transformer flattens before it checks, the Metadata
    transformer after: requiring the flattened key [p + separator + k] of a
    nested map succeeds in [Data.Transform], and fails in
    [Metadata.Transform] as long as the key is not there before the
    flatten. *)
Theorem Flatten_runs_before_Require_in_Data_only (p sep k : string)
  (keep : bool) (c : Container) :
  sep ≠ "" → sep ≠ "drop" →
  ((∀ m, m ∈ Metrics c →
         ∃ g nested v, Data m = Some g ∧ g !! p = Some (VMap nested)
                       ∧ nested !! k = Some v ∧ isNil v = false) →
   out (Data.Transform
          (Data.mk ∅ [p +:+ sep +:+ k] [[p]] sep [] [] [] keep) c) = Ok)
  ∧ (Metrics c ≠ [] →
     (∀ m, m ∈ Metrics c → commaOk (Metadata m) (p +:+ sep +:+ k) = None) →
     out (Metadata.Transform
            (Metadata.mk ∅ [p +:+ sep +:+ k] [] [] [] [] [[p]] sep [] keep) c)
     = Err ("missing required metadata field " +:+ p +:+ sep +:+ k)).
Proof.
  intros Hsep Hdrop. split.
  - intros Hall. unfold Data.Transform. cbv zeta.
    assert (Data.defaultSeparator
              (Data.mk ∅ [p +:+ sep +:+ k] [[p]] sep [] [] [] keep)
            = Data.mk ∅ [p +:+ sep +:+ k] [[p]] sep [] [] [] keep) as ->.
    { unfold Data.defaultSeparator. simpl. by rewrite bool_decide_false. }
    pose proof (eachMetric_all_pass
                  (Data.transformMetric
                     (Data.mk ∅ [p +:+ sep +:+ k] [[p]] sep [] [] [] keep))
                  (Metrics c)) as Hpass.
    destruct (eachMetric _ _) as [ms o]. cbn [out]. apply Hpass.
    intros m Hm. destruct (Hall m Hm) as (g & nested & v & Hg & Hp & Hk & Hv).
    unfold Data.transformMetric, Data.atRequire, Data.atBan.
    cbn [Data.Set_ Data.Flatten Data.FlattenSeparator Data.KeepOriginal
         Data.Require Data.Remove Data.Ban Data.Rename].
    rewrite applySet_empty, withData_id. cbn [applyFlatten].
    rewrite (flatten_map_leaf m true keep p sep g nested Hg Hp).
    rewrite bool_decide_false by done.
    cbn [checkRequire withTarget withData Data isNilMap orb].
    assert (index (Some (written keep p sep nested g)) (p +:+ sep +:+ k) = v)
      as ->.
    { unfold index, commaOk. simpl.
      change (p +:+ sep +:+ k) with (rootKey p sep k).
      rewrite (lookup_written_child keep p sep nested g k v Hk); [done|].
      right. by apply rootKey_ne_path. }
    rewrite Hv. done.
  - intros Hne Hmiss. unfold Metadata.Transform.
    destruct (Metrics c) as [|m ms] eqn:Hms; [done|].
    rewrite eachMetric_cons.
    assert (Metadata.transformMetric
              (Metadata.mk ∅ [p +:+ sep +:+ k] [] [] [] [] [[p]] sep [] keep) m
            = (m, Err ("missing required metadata field "
                         +:+ p +:+ sep +:+ k))) as ->.
    { unfold Metadata.transformMetric, Metadata.atRequire.
      cbn [Metadata.Set_ Metadata.Require].
      rewrite applySet_empty, withMetadata_id. cbn [checkRequire].
      unfold index. rewrite (Hmiss m) by (by left). simpl.
      by rewrite orb_true_r. }
    done.
Qed.

Lemma Flatten_runs_before_Require_in_Data_only_witness :
  out (Data.Transform
         (Data.mk ∅ ["net" +:+ "__" +:+ "rx"] [["net"]] "__" [] [] [] false)
         (oneMetric (Some {[ "net" := VMap {[ "rx" := VInt 10 ]} ]})
                    (Some {[ "net" := VMap {[ "rx" := VInt 10 ]} ]}))) = Ok
  ∧ out (Metadata.Transform
           (Metadata.mk ∅ ["net" +:+ "__" +:+ "rx"] [] [] [] [] [["net"]]
                        "__" [] false)
           (oneMetric (Some {[ "net" := VMap {[ "rx" := VInt 10 ]} ]})
                      (Some {[ "net" := VMap {[ "rx" := VInt 10 ]} ]})))
    = Err ("missing required metadata field " +:+ "net" +:+ "__" +:+ "rx").
Proof.
  destruct (Flatten_runs_before_Require_in_Data_only "net" "__" "rx" false
              (oneMetric (Some {[ "net" := VMap {[ "rx" := VInt 10 ]} ]})
                         (Some {[ "net" := VMap {[ "rx" := VInt 10 ]} ]})))
    as [Hdata Hmeta]; [discriminate..|].
  split.
  - apply Hdata. intros m Hm. apply list_elem_of_singleton in Hm. subst m.
    exists {[ "net" := VMap {[ "rx" := VInt 10 ]} ]}, {[ "rx" := VInt 10 ]},
      (VInt 10).
    split_and!; [reflexivity|vm_compute; reflexivity..|reflexivity].
  - apply Hmeta; [discriminate|].
    intros m Hm. apply list_elem_of_singleton in Hm. subst m.
    vm_compute. reflexivity.
Defined.

End FlattenOrder.

(** ** Witnesses of the iteration-order lemmas *)

Lemma applySet_any_order_witness :
  foldr (uncurry makeAssign) None [("b", VInt 2); ("a", VInt 1)]
  = applySet (<["a" := VInt 1]> {[ "b" := VInt 2 ]}) None.
Proof.
  apply (applySet_any_order (<["a" := VInt 1]> {[ "b" := VInt 2 ]}) None
           [("b", VInt 2); ("a", VInt 1)]).
  vm_compute. apply perm_swap.
Defined.

Lemma flattenWrite_any_order_witness :
  foldr (uncurry (flattenWrite true false "a" "_"))
        (Done (mkMetric None None (Some nested_ab)))
        [("b", VInt 1); ("c", VInt 2)]
  = map_fold (flattenWrite true false "a" "_")
             (Done (mkMetric None None (Some nested_ab)))
             (<["b" := VInt 1]> {[ "c" := VInt 2 ]}).
Proof.
  apply (flattenWrite_any_order true false "a" "_"
           (<["b" := VInt 1]> {[ "c" := VInt 2 ]})
           (mkMetric None None (Some nested_ab))
           [("b", VInt 1); ("c", VInt 2)]).
  vm_compute. apply perm_swap.
Defined.

(** * The help table of the command *)
Section PrettyPrint.

Import main.

Variable Sprintf_11s : string → string.
Variable Fields : string → list string.

Lemma string_app_assoc (a b c : string) : (a +:+ b) +:+ c = a +:+ b +:+ c.
Proof.
  induction a as [|x a IH]; [done|].
  change (String x ((a +:+ b) +:+ c) = String x (a +:+ b +:+ c)).
  by rewrite IH.
Qed.

Lemma lineText_length_cons (w : string) (line : list string) :
  String.length (lineText (w :: line))
  = String.length w + 1 + String.length (lineText line).
Proof.
  unfold lineText. cbn [foldr]. rewrite !app_length. simpl. lia.
Qed.

(** The loop lays the words out in lines, losing none; when no word is
    longer than the console width, no line is wider than it plus the
    leading blank. *)
Lemma wrapLoop_layout (fields : list string) (l : nat) :
  ∃ first more,
    concat (first :: more) = fields
    ∧ wrapLoop Sprintf_11s l fields = layout Sprintf_11s first more
    ∧ Forall (λ line, line ≠ []) more
    ∧ (Forall (λ w, (String.length w ≤ helpWidth)%nat) fields →
       (l ≤ helpWidth + 1)%nat →
       (l + String.length (lineText first) ≤ helpWidth + 1)%nat
       ∧ Forall (λ line, (String.length (lineText line) ≤ helpWidth + 1)%nat) more).
Proof.
  revert l. induction fields as [|w fields IH]; intros l.
  { exists [], []. split_and!; [done..|]. intros _ Hl. simpl. split; [unfold helpWidth in *; lia|done]. }
  cbn [wrapLoop]. destruct (helpWidth <? l + String.length w)%nat eqn:Hcmp.
  - destruct (IH (0 + (String.length w + 1))) as (cur & more & Hcat & Hrun & Hne & Hw).
    exists [], ((w :: cur) :: more). split_and!.
    + simpl in *. by rewrite <- Hcat.
    + rewrite Hrun. unfold layout. cbn [lineText foldr].
      by rewrite !string_app_assoc.
    + by constructor.
    + intros Hshort Hl. inversion Hshort as [|? ? Hw0 Hrest]; subst.
      destruct (Hw Hrest ltac:(unfold helpWidth in *; lia)) as [Hcur Hmore].
      split; [simpl; unfold helpWidth in *; lia|]. constructor; [|done].
      rewrite lineText_length_cons. unfold helpWidth in *. lia.
  - apply Nat.ltb_ge in Hcmp.
    destruct (IH (l + (String.length w + 1))) as (cur & more & Hcat & Hrun & Hne & Hw).
    exists (w :: cur), more. split_and!.
    + simpl in *. by rewrite <- Hcat.
    + rewrite Hrun. unfold layout. cbn [lineText foldr].
      by rewrite !string_app_assoc.
    + done.
    + intros Hshort Hl. inversion Hshort as [|? ? Hw0 Hrest]; subst.
      destruct (Hw Hrest ltac:(unfold helpWidth in *; lia)) as [Hcur Hmore].
      split; [|done]. rewrite lineText_length_cons. unfold helpWidth in *. lia.
Qed.

(** [prettyPrint] prints the scheme column and then the words of the
    description, in their order and each after a blank, broken into lines
    that each start under the description column; no word is lost, no
    continuation line is empty, and when no word is longer than the console
    width of 66 bytes, no line is wider than 67 bytes, the leading blank
    included. *)
Theorem prettyPrint_wraps (scheme desc : string) :
  ∃ first more,
    concat (first :: more) = Fields desc
    ∧ prettyPrint Sprintf_11s Fields scheme desc
      = (Sprintf_11s scheme +:+ " |")
        +:+ layout Sprintf_11s first more +:+ newline
    ∧ Forall (λ line, line ≠ []) more
    ∧ (Forall (λ w, (String.length w ≤ helpWidth)%nat) (Fields desc) →
       Forall (λ line, (String.length (lineText line) ≤ helpWidth + 1)%nat)
              (first :: more)).
Proof.
  destruct (wrapLoop_layout (Fields desc) 0)
    as (first & more & Hcat & Hrun & Hne & Hw).
  exists first, more. split_and!; [done| |done|].
  - unfold prettyPrint. by rewrite Hrun.
  - intros Hshort. destruct (Hw Hshort ltac:(unfold helpWidth in *; lia)) as [Hfirst Hmore].
    constructor; [simpl in Hfirst; unfold helpWidth in *; lia|done].
Qed.

End PrettyPrint.

Lemma prettyPrint_wraps_witness :
  ∃ first more,
    concat (first :: more) = ["HTTP"; "sender"]
    ∧ Forall (λ line, (String.length (main.lineText line) ≤ main.helpWidth + 1)%nat)
             (first :: more).
Proof.
  destruct (prettyPrint_wraps (λ s, s) (λ _, ["HTTP"; "sender"]) "http" "")
    as (first & more & Hcat & _ & _ & Hw).
  exists first, more. split; [exact Hcat|].
  apply Hw. repeat constructor; vm_compute; lia.
Defined.
